(** * Scholr: a shallow embedding of the service layer and the tutor turn

    The development follows the TypeScript sources:
    - [services/geminiService.ts]: [replaceSuperscripts], [retryAPI],
      [getChapters], [analyzeSyllabus];
    - [components/AITutor.tsx]: [handleSend];
    - [services/userService.ts]: [loginUser], [logoutUser],
      [subscribeToAuthChanges], [getBookmarks], [addBookmark],
      [removeBookmark].

    Conventions.  A JavaScript string is represented by the [string] of its
    UTF-8 bytes; every pattern the code searches for (the caret, the digits,
    the signs, the markers "429", "quota", ...) is ASCII, and an ASCII byte
    never occurs inside a multi-byte UTF-8 sequence, so searching and
    rewriting on bytes agrees with searching and rewriting on UTF-16 code
    units.  A JavaScript number that the code uses as a count, a delay or a
    timestamp is a [Z].  A promise that resolves or rejects is a value of a
    sum type, [inr] for the resolved value and [inl] for the thrown one.
    Calls to [console] are diagnostics and are not part of the model. *)

From Stdlib Require Import ZArith Lia Bool List Ascii String DecimalString.
From stdpp Require Import base option list strings gmap.
From Equations Require Import Equations.
From Equations.Prop Require Import Logic.
Import ListNotations.

Local Open Scope string_scope.
Local Open Scope Z_scope.
Local Open Scope list_scope.

(** ** JavaScript values shared by the services *)

Module Js.

(** A thrown value: its [name], and what the code reads off it,
    [error.status] and [error.message], either of which may be absent. *)
Record Error := mkError {
  name : string;
  status : option Z;
  message : option string
}.

(** [new Error(msg)]: a message and no status. *)
Definition newError (msg : string) : Error :=
  {| name := "Error"; status := None; message := Some msg |}.

(** [s.includes(searchString)] *)
Fixpoint includes (s searchString : string) : bool :=
  String.prefix searchString s ||
  match s with
  | EmptyString => false
  | String _ rest => includes rest searchString
  end.

(** [error.message?.includes(marker)], read as a condition. *)
Definition messageIncludes (error : Error) (marker : string) : bool :=
  match message error with
  | Some m => includes m marker
  | None => false
  end.

(** [error.status === n] *)
Definition statusIs (error : Error) (n : Z) : bool :=
  match status error with
  | Some s => s =? n
  | None => false
  end.

(** Truthiness of a [string | undefined] value: present and not empty. *)
Definition truthy (t : option string) : bool :=
  match t with
  | Some EmptyString | None => false
  | Some _ => true
  end.

End Js.

(** ** services/geminiService.ts *)

Module Gemini.
Import Js.

(** What [retryAPI] does that an observer can count: it invokes the wrapped
    operation, and it sleeps ([setTimeout]) for a number of milliseconds. *)
Inductive event :=
| Invoked
| Slept (ms : Z).

(** How often a trace invokes the operation, and the delays it sleeps, in
    order. *)
Definition invocations (tr : list event) : Z :=
  Z.of_nat
    (List.length
       (List.filter (fun e => if e is Invoked then true else false) tr)).

Definition sleeps (tr : list event) : list Z :=
  omap (fun e => if e is Slept ms then Some ms else None) tr.

(** The schedule of a call all of whose [n] retries are used: invoke, sleep
    for the current delay, and go on with the delay doubled; after the last
    retry, one more invocation. *)
Fixpoint backoff (n : nat) (delay : Z) : list event :=
  match n with
  | O => [Invoked]
  | S n' => Invoked :: Slept delay :: backoff n' (delay * 2)
  end.

(** The condition of the [if] in the [catch] block of [retryAPI], without
    its [retries > 0] conjunct. *)
Definition rateLimited (error : Error) : bool :=
  statusIs error 429 ||
  statusIs error 503 ||
  messageIncludes error "429" ||
  messageIncludes error "RESOURCE_EXHAUSTED" ||
  messageIncludes error "quota".

Section Retry.
(** [W] is the state of everything the wrapped operation talks to. *)
Context {W T : Type}.

(** [() => Promise<T>]: running it changes the world and resolves or
    rejects. *)
Definition Operation := W -> (Error + T) * W.

(** [retryAPI]: the result, the world the last invocation left, and what
    was done on the way. *)
Equations? retryAPI (operation : Operation) (retries delay : Z) (w : W)
  : (Error + T) * W * list event by wf (Z.to_nat retries) lt :=
retryAPI operation retries delay w with operation w => {
  | (inr v, w1) := (inr v, w1, [Invoked]);
  | (inl err, w1) with Logic.inspect ((retries >? 0) && rateLimited err) => {
    | exist _ true _ :=
        let '(r, w2, tr) := retryAPI operation (retries - 1) (delay * 2) w1 in
        (r, w2, Invoked :: Slept delay :: tr);
    | exist _ false _ := (inl err, w1, [Invoked]) } }.
Proof. apply andb_prop in e as [e _]. lia. Qed.

(** An operation every invocation of which fails, with a failure of the
    kind [P]; in particular, with the signature of a rate limit. *)
Definition alwaysFailsWith (P : Error -> Prop) (operation : Operation) : Prop :=
  forall w, exists err w1, operation w = (inl err, w1) /\ P err.

Definition alwaysRateLimited (operation : Operation) : Prop :=
  alwaysFailsWith (fun err => rateLimited err = true) operation.

(** The operation with a counter beside its world: every application, and
    nothing else, adds one to the counter. *)
Definition counted (operation : Operation) : W * Z -> (Error + T) * (W * Z) :=
  fun '(w, calls) =>
    let '(r, w1) := operation w in (r, (w1, calls + 1)).

End Retry.

(** *** [replaceSuperscripts] *)

(** The object literal [map]: [map[c]] for a one-character key. *)
Definition map (c : ascii) : option string :=
  match c with
  | "0"%char => Some "⁰" | "1"%char => Some "¹" | "2"%char => Some "²"
  | "3"%char => Some "³" | "4"%char => Some "⁴" | "5"%char => Some "⁵"
  | "6"%char => Some "⁶" | "7"%char => Some "⁷" | "8"%char => Some "⁸"
  | "9"%char => Some "⁹"
  | "+"%char => Some "⁺" | "-"%char => Some "⁻"
  | _ => None
  end.

(** The character class [[0-9+\-]] of the regular expression. *)
Definition isExponentChar (c : ascii) : bool :=
  match c with
  | "0" | "1" | "2" | "3" | "4" | "5" | "6" | "7" | "8" | "9"
  | "+" | "-" => true
  | _ => false
  end%char.

(** [[0-9+\-]*], greedy: the longest prefix inside the class and what
    follows it. *)
Fixpoint exponentRun (s : string) : string * string :=
  match s with
  | String c rest =>
      if isExponentChar c then
        let '(run, after) := exponentRun rest in (String c run, after)
      else (EmptyString, s)
  | EmptyString => (EmptyString, EmptyString)
  end.

(** One attempt of [/\^([0-9+\-]+)/] at the start of [s]: the capture
    group and the text after the match. *)
Definition matchCaret (s : string) : option (string * string) :=
  match s with
  | String "^"%char rest =>
      match exponentRun rest with
      | (EmptyString, _) => None
      | (run, after) => Some (run, after)
      end
  | _ => None
  end.

(** The replacer callback:
    [match.split('').map(c => map[c] || c).join('')]. *)
Fixpoint replacer (m : string) : string :=
  match m with
  | EmptyString => EmptyString
  | String c rest =>
      (if Js.truthy (map c) then default EmptyString (map c)
       else String c EmptyString) +:+ replacer rest
  end.

Lemma exponentRun_length s run after :
  exponentRun s = (run, after) ->
  (String.length after <= String.length s)%nat.
Proof.
  revert run after. induction s as [|c s IH]; intros run after; simpl.
  - intros [= <- <-]. simpl. lia.
  - destruct (isExponentChar c); [|intros [= <- <-]; simpl; lia].
    destruct (exponentRun s) as [r a]. intros [= <- <-].
    specialize (IH r a eq_refl). lia.
Qed.

Lemma matchCaret_length s run after :
  matchCaret s = Some (run, after) ->
  (String.length after < String.length s)%nat.
Proof.
  destruct s as [|c s]; [discriminate|]. unfold matchCaret.
  destruct (Ascii.eqb_spec c "^") as [->|Hne].
  - destruct (exponentRun s) as [r a] eqn:E.
    apply exponentRun_length in E.
    destruct r; [discriminate|]. intros [= <- <-]. simpl. lia.
  - intros H. exfalso. apply Hne.
    destruct c as [[] [] [] [] [] [] [] []]; try discriminate H. reflexivity.
Qed.

(** [text.replace(/\^([0-9+\-]+)/g, replacer)]: scan from the left; where
    the pattern matches, emit the replacement and go on after the match;
    elsewhere copy one character. *)
Equations? replaceSuperscripts (text : string) : string
  by wf (String.length text) lt :=
replaceSuperscripts text with Logic.inspect (matchCaret text) => {
  | exist _ (Some (m, after)) _ := replacer m +:+ replaceSuperscripts after;
  | exist _ None _ with text => {
    | EmptyString := EmptyString;
    | String c rest := String c (replaceSuperscripts rest) } }.
Proof. eapply matchCaret_length; eassumption. Qed.

(** Where the pattern occurs: [s] begins with a character of the class;
    [s] consists of such characters; somewhere in [s] a caret is followed
    by one. *)
Definition startsWithExponentChar (s : string) : bool :=
  match s with
  | String c _ => isExponentChar c
  | EmptyString => false
  end.

Fixpoint allExponentChars (s : string) : bool :=
  match s with
  | String c rest => isExponentChar c && allExponentChars rest
  | EmptyString => true
  end.

Fixpoint hasCaretExponent (s : string) : bool :=
  match s with
  | String c rest =>
      (Ascii.eqb c "^" && startsWithExponentChar rest) || hasCaretExponent rest
  | EmptyString => false
  end.

(** [s] holds no caret at all. *)
Fixpoint noCaret (s : string) : bool :=
  match s with
  | String c rest => negb (Ascii.eqb c "^") && noCaret rest
  | EmptyString => true
  end.

(** *** The remote collaborator and the operations built on it *)

(** The string enums [ClassLevel] and [Subject] of [types.ts], with their
    values. *)
Inductive ClassLevel := Class8 | Class9 | Class10 | Class11 | Class12.

Inductive Subject :=
| Math | Science | SocialScience | English | Physics | Chemistry | Biology
| Accountancy | Economics | BusinessStudies | ComputerScience.

Definition classLevelText (c : ClassLevel) : string :=
  match c with
  | Class8 => "Class 8" | Class9 => "Class 9" | Class10 => "Class 10"
  | Class11 => "Class 11" | Class12 => "Class 12"
  end.

Definition subjectText (s : Subject) : string :=
  match s with
  | Math => "Mathematics" | Science => "Science"
  | SocialScience => "Social Science" | English => "English"
  | Physics => "Physics" | Chemistry => "Chemistry" | Biology => "Biology"
  | Accountancy => "Accountancy" | Economics => "Economics"
  | BusinessStudies => "Business Studies"
  | ComputerScience => "Computer Science"
  end.

(** A parsed JSON text, as [JSON.parse] returns it; an object holds each
    key once, and of a number only whether it is zero matters here. *)
#[local] Unset Elimination Schemes.
Inductive Json :=
| JNull
| JBool (b : bool)
| JNumber (n : Z)
| JString (s : string)
| JArray (items : list Json)
| JObject (fields : list (string * Json)).
#[local] Set Elimination Schemes.

Definition typeErrorCategories : Error :=
  {| name := "TypeError"; status := None;
     message := Some "Cannot read properties of null (reading 'categories')" |}.

Fixpoint lookupField (key : string) (fields : list (string * Json))
  : option Json :=
  match fields with
  | [] => None
  | (k, v) :: rest => if String.eqb k key then Some v else lookupField key rest
  end.

(** [data.categories]: [inl] when reading a property of [null] throws,
    [inr None] when the property is [undefined]. *)
Definition categoriesOf (data : Json) : Error + option Json :=
  match data with
  | JNull => inl typeErrorCategories
  | JObject fields => inr (lookupField "categories" fields)
  | _ => inr None
  end.

(** Truthiness of a JSON value that may be [undefined]. *)
Definition jsonTruthy (v : option Json) : bool :=
  match v with
  | None | Some JNull | Some (JBool false) | Some (JNumber 0)
  | Some (JString EmptyString) => false
  | Some _ => true
  end.

(** One part of [contents.parts]. *)
Inductive Part :=
| TextPart (text : string)
| InlineData (mimeType data : string).

(** The argument of [ai.models.generateContent]; the response schema, which
    only the remote side reads, is kept as a flag. *)
Record GenerateContentParameters := {
  model : string;
  contents : list Part;
  responseMimeType : option string;
  hasResponseSchema : bool
}.

(** What the code reads off the response: [response.text]. *)
Record GenerateContentResponse := { text : option string }.

Definition doubleQuote : string := String "034"%char EmptyString.

Section Remote.
Context {W : Type}.

(** [ai.models.generateContent], the remote collaborator. *)
Variable generateContent :
  GenerateContentParameters -> W -> (Error + GenerateContentResponse) * W.
(** [JSON.parse]: a parsed value or a thrown [SyntaxError]. *)
Variable JSON_parse : string -> Error + Json.

Definition chaptersPrompt (classLevel : ClassLevel) (subject : Subject)
  : string :=
    "
    List all official NCERT chapter names for " +:+ classLevelText classLevel
    +:+ " " +:+ subjectText subject +:+ ".
    Categorize them strictly:
    - Science (8-10): Physics, Chemistry, Biology.
    - Social Science: History, Geography, Political Science, Economics.
    - Others: Single 'Chapters' category.
    Format: JSON { " +:+ doubleQuote +:+ "categories" +:+ doubleQuote
    +:+ ": [{ " +:+ doubleQuote +:+ "category" +:+ doubleQuote +:+ ": "
    +:+ doubleQuote +:+ "..." +:+ doubleQuote +:+ ", " +:+ doubleQuote
    +:+ "chapters" +:+ doubleQuote +:+ ": [" +:+ doubleQuote +:+ "..."
    +:+ doubleQuote +:+ "] }] }
  ".

Definition chaptersRequest (classLevel : ClassLevel) (subject : Subject)
  : GenerateContentParameters :=
  {| model := "gemini-3-flash-preview";
     contents := [TextPart (chaptersPrompt classLevel subject)];
     responseMimeType := Some "application/json";
     hasResponseSchema := true |}.

(** The arrow function [getChapters] hands to [retryAPI]. *)
Definition chaptersOperation (classLevel : ClassLevel) (subject : Subject)
  : @Operation W Json :=
  fun w =>
    match generateContent (chaptersRequest classLevel subject) w with
    | (inl err, w1) => (inl err, w1)
    | (inr response, w1) =>
        if truthy (text response) then
          match JSON_parse (default EmptyString (text response)) with
          | inl err => (inl err, w1)
          | inr data =>
              match categoriesOf data with
              | inl err => (inl err, w1)
              | inr categories =>
                  (inr (if jsonTruthy categories
                        then default (JArray []) categories
                        else JArray []), w1)
              end
          end
        else (inr (JArray []), w1)
    end.

(** [getChapters]: the operation under [retryAPI] with its default
    arguments, and nothing around it. *)
Definition getChapters (classLevel : ClassLevel) (subject : Subject) (w : W)
  : (Error + Json) * W * list event :=
  retryAPI (chaptersOperation classLevel subject) 3 2000 w.

Definition analysisPrompt : string :=
  "You are a strategic academic advisor. Analyze this syllabus/document. 1) Identify the most critical, high-weightage topics. 2) Create a concise, strategic study plan to help the student ACE their exam (score 100%). 3) Give 3 specific 'Pro Tips'. Format the output in clean Markdown using **bold** for importance and bullet points.".

Definition analysisRequest (fileBase64 mimeType : string)
  : GenerateContentParameters :=
  {| model := "gemini-3-flash-preview";
     contents := [InlineData mimeType fileBase64; TextPart analysisPrompt];
     responseMimeType := None;
     hasResponseSchema := false |}.

(** The arrow function [analyzeSyllabus] hands to [retryAPI]. *)
Definition analysisOperation (fileBase64 mimeType : string)
  : @Operation W string :=
  fun w =>
    match generateContent (analysisRequest fileBase64 mimeType) w with
    | (inl err, w1) => (inl err, w1)
    | (inr response, w1) =>
        if negb (truthy (text response))
        then (inl (newError "No analysis generated"), w1)
        else (inr (default EmptyString (text response)), w1)
    end.

Definition highTraffic : Error :=
  newError "High traffic. We are automatically retrying, but if this persists, please try again in a few minutes.".

(** The condition of the [if] in the handler passed to [.catch]. *)
Definition tooManyRequests (err : Error) : bool :=
  statusIs err 429 || messageIncludes err "429".

(** The handler passed to [.catch] in [analyzeSyllabus]. *)
Definition analysisCatch (err : Error) : Error :=
  if tooManyRequests err then highTraffic else err.

(** A remote side that fails every call made with [request], with a failure
    of the kind [P]. *)
Definition remoteAlwaysFailsWith (P : Error -> Prop)
  (request : GenerateContentParameters) : Prop :=
  forall w, exists err w1, generateContent request w = (inl err, w1) /\ P err.

Definition analyzeSyllabus (fileBase64 mimeType : string) (w : W)
  : (Error + string) * W * list event :=
  match retryAPI (analysisOperation fileBase64 mimeType) 3 2000 w with
  | (inl err, w1, tr) => (inl (analysisCatch err), w1, tr)
  | (inr v, w1, tr) => (inr v, w1, tr)
  end.

End Remote.

(** *** Runs of the wrapped operation *)

Section Runs.
Context {W T : Type}.

(** [rateLimitedRun operation k w w']: invoked [k] times in a row starting
    in [w], the operation fails each time with the signature of a rate
    limit, and leaves the world [w']. *)
Inductive rateLimitedRun (operation : @Operation W T)
  : nat -> W -> W -> Prop :=
| run_done w : rateLimitedRun operation O w w
| run_again k w err w1 w' :
    operation w = (inl err, w1) ->
    rateLimited err = true ->
    rateLimitedRun operation k w1 w' ->
    rateLimitedRun operation (S k) w w'.

End Runs.

(** *** [generateNotes] *)

(** The part of [config] that [getChapters] and [analyzeSyllabus] do not
    use. *)
Record GenerateContentConfig := { systemInstruction : option string }.

Section Notes.
Context {W : Type}.

(** [ai.models.generateContent], called with a system instruction. *)
Variable generateContentWith :
  GenerateContentParameters -> GenerateContentConfig -> W
  -> (Error + GenerateContentResponse) * W.
Variable JSON_parse : string -> Error + Json.

Definition notesPrompt (classLevel : ClassLevel) (subject : Subject)
  (topic : string) : string :=
    "
    You are an elite academic tutor for CBSE NCERT " +:+ classLevelText classLevel
    +:+ " " +:+ subjectText subject +:+ ".
    Create a MASTER CLASS STUDY NOTE for: " +:+ doubleQuote +:+ topic
    +:+ doubleQuote +:+ ".
    
    CRITICAL:
    1. **SUPERSCRIPTS**: Use Unicode (x², cm³, 10⁻⁶) for all math/units. NO carets (^).
    2. **FORMAT**: Structured " +:+ doubleQuote +:+ "Content Points" +:+ doubleQuote
    +:+ " (2-3 sentences each). NO long paragraphs.
    3. **DEPTH**: Exhaustive, textbook-quality, 100% NCERT aligned.
    4. **STRUCTURE**:
       - 5-7 distinct sections.
       - " +:+ doubleQuote +:+ "Solved Questions" +:+ doubleQuote
    +:+ " (3-5 complex exam problems with step-by-step solutions).
       - " +:+ doubleQuote +:+ "Common Mistakes" +:+ doubleQuote +:+ ".
       - " +:+ doubleQuote +:+ "Real World Applications" +:+ doubleQuote +:+ ".
    5. **VISUALS**: specific, clear image prompts.
  ".

Definition notesRequest (classLevel : ClassLevel) (subject : Subject)
  (topic : string) : GenerateContentParameters :=
  {| model := "gemini-3-flash-preview";
     contents := [TextPart (notesPrompt classLevel subject topic)];
     responseMimeType := Some "application/json";
     hasResponseSchema := true |}.

Definition notesConfig : GenerateContentConfig :=
  {| systemInstruction :=
       Some "You are Scholr, a world-class AI educator. You provide deep, comprehensive educational material formatted as clean, readable points. You always use Unicode superscripts (², ³, ⁻¹) for math." |}.

(** The arrow function [generateNotes] hands to [retryAPI]; what it
    returns is what [JSON.parse] returns, the cast to [StudyNote] being
    unchecked. *)
Definition notesOperation (classLevel : ClassLevel) (subject : Subject)
  (topic : string) : @Operation W Json :=
  fun w =>
    match generateContentWith (notesRequest classLevel subject topic)
            notesConfig w with
    | (inl err, w1) => (inl err, w1)
    | (inr response, w1) =>
        if truthy (text response) then
          let processedText :=
            replaceSuperscripts (default EmptyString (text response)) in
          match JSON_parse processedText with
          | inl err => (inl err, w1)
          | inr note => (inr note, w1)
          end
        else (inl (newError "Empty response from AI"), w1)
    end.

Definition generateNotes (classLevel : ClassLevel) (subject : Subject)
  (topic : string) (w : W) : (Error + Json) * W * list event :=
  retryAPI (notesOperation classLevel subject topic) 3 2000 w.

End Notes.

End Gemini.

(** ** The exponents to rewrite, in the words of the specification

    Written without the functions of the code, to compare
    [replaceSuperscripts] with. *)

Module Exponents.

(** "digit 0-9 to superscript 0-9, plus to superscript plus, minus to
    superscript minus" *)
Definition table : list (ascii * string) :=
  [("0"%char, "⁰"); ("1"%char, "¹"); ("2"%char, "²"); ("3"%char, "³");
   ("4"%char, "⁴"); ("5"%char, "⁵"); ("6"%char, "⁶"); ("7"%char, "⁷");
   ("8"%char, "⁸"); ("9"%char, "⁹"); ("+"%char, "⁺"); ("-"%char, "⁻")].

(** The characters "from {0-9, +, -}". *)
Definition characters : list ascii := table.*1.

(** The superscript of a character of the table; any other character
    stands for itself. *)
Definition superscript (c : ascii) : string :=
  default (String c EmptyString)
    (snd <$> List.find (fun entry => Ascii.eqb entry.1 c) table).

Fixpoint superscripts (run : string) : string :=
  match run with
  | EmptyString => EmptyString
  | String c rest => superscript c +:+ superscripts rest
  end.

(** "One or more characters from {0-9, +, -}". *)
Definition isRun (run : string) : Prop :=
  run <> EmptyString /\
  Forall (fun c => c ∈ characters) (list_ascii_of_string run).

(** The text goes on with a character from {0-9, +, -}. *)
Definition continues (s : string) : Prop :=
  exists c rest, s = String c rest /\ c ∈ characters.

(** Somewhere in the text "the literal character '^'" is "followed by" a
    character from {0-9, +, -}. *)
Definition occurs (s : string) : Prop :=
  exists a b, s = a +:+ "^" +:+ b /\ continues b.

End Exponents.

(** ** components/AITutor.tsx *)

Module Tutor.
Import Js.

Inductive Role := user | model.

Record ChatMessage := { role : Role; text : string }.

(** [!s.trim()]: [s] consists of the white-space and line-terminator
    characters of ECMAScript only (read in UTF-8), so that nothing is left
    once they are stripped. *)
Fixpoint trimIsEmpty (s : string) : bool :=
  match s with
  | EmptyString => true
  | String "009"%char r | String "010"%char r | String "011"%char r
  | String "012"%char r | String "013"%char r | String " "%char r =>
      trimIsEmpty r
  | String "194"%char (String "160"%char r) => trimIsEmpty r     (* U+00A0 *)
  | String "225"%char (String "154"%char (String "128"%char r)) =>
      trimIsEmpty r                                              (* U+1680 *)
  | String "226"%char (String "128"%char (String c r)) =>
      let n := N_of_ascii c in
      (((128 <=? n) && (n <=? 138))%N                  (* U+2000..U+200A *)
       || (n =? 168)%N || (n =? 169)%N                 (* U+2028, U+2029 *)
       || (n =? 175)%N)                                        (* U+202F *)
      && trimIsEmpty r
  | String "226"%char (String "129"%char (String "159"%char r)) =>
      trimIsEmpty r                                              (* U+205F *)
  | String "227"%char (String "128"%char (String "128"%char r)) =>
      trimIsEmpty r                                              (* U+3000 *)
  | String "239"%char (String "187"%char (String "191"%char r)) =>
      trimIsEmpty r                                              (* U+FEFF *)
  | _ => false
  end.

(** A fragment of the stream: what the loop reads is [chunk.text]. *)
Definition Chunk := option string.

(** What [sendMessageStream] does for one message: the request is rejected,
    or a finite run of fragments arrives, after which the stream either
    ends or throws. *)
Inductive StreamResult :=
| Rejected (err : Error)
| Streamed (chunks : list Chunk) (failure : option Error).

(** The texts of the fragments, concatenated in the order of receipt; a
    fragment without text adds nothing. *)
Definition fragmentsText (chunks : list Chunk) : string :=
  foldr (fun c acc => default EmptyString c +:+ acc) EmptyString chunks.

(** The remote conversation behind [chatSessionRef.current]. *)
Definition Chat := string -> StreamResult.

(** The state of the component that [handleSend] reads and writes. *)
Record State := {
  messages : list ChatMessage;
  input : string;
  loading : bool;
  chatSessionRef : option Chat
}.

Definition apology : string :=
  "I'm sorry, I encountered an error. Please try again.".

(** The updater
    [prev => { const updated = [...prev];
               updated[updated.length - 1].text = fullResponse;
               return updated; }];
    on an empty array the assignment throws, which is [None]. *)
Definition overwriteLast (fullResponse : string) (prev : list ChatMessage)
  : option (list ChatMessage) :=
  match List.length prev with
  | O => None
  | S i =>
      match prev !! i with
      | Some m => Some (<[i := {| role := role m; text := fullResponse |}]> prev)
      | None => None
      end
  end.

(** The [for await] loop: [fullResponse] grows by every fragment that has
    a non-empty text, and each growth is written into the last message. *)
Fixpoint consume (chunks : list Chunk) (fullResponse : string)
  (msgs : list ChatMessage) : option (list ChatMessage) :=
  match chunks with
  | [] => Some msgs
  | c :: rest =>
      if truthy c then
        let fullResponse' := fullResponse +:+ default EmptyString c in
        match overwriteLast fullResponse' msgs with
        | Some msgs' => consume rest fullResponse' msgs'
        | None => None
        end
      else consume rest fullResponse msgs
  end.

(** [handleSend], with [textOverride || input] first.  The state updates are
    applied in the order the code issues them; [None] stands for an updater
    that throws. *)
Definition textToSend (textOverride : option string) (st : State) : string :=
  if truthy textOverride then default EmptyString textOverride else input st.

Definition handleSend (textOverride : option string) (st : State)
  : option State :=
  let textToSend := textToSend textOverride st in
  match trimIsEmpty textToSend, chatSessionRef st with
  | true, _ | _, None => Some st
  | false, Some chat =>
      let newMessages :=
        messages st ++ [{| role := user; text := textToSend |}] in
      let caught (prev : list ChatMessage) :=
        Some {| messages := prev ++ [{| role := model; text := apology |}];
                input := EmptyString;
                loading := false;
                chatSessionRef := chatSessionRef st |} in
      match chat textToSend with
      | Rejected _ => caught newMessages
      | Streamed chunks failure =>
          match consume chunks EmptyString
                  (newMessages ++ [{| role := model; text := EmptyString |}])
          with
          | None => None
          | Some msgs =>
              match failure with
              | Some _ => caught msgs
              | None =>
                  Some {| messages := msgs;
                          input := EmptyString;
                          loading := false;
                          chatSessionRef := chatSessionRef st |}
              end
          end
      end
  end.

End Tutor.

(** ** services/userService.ts *)

Module UserService.
Import Js.

Module Provider.
(** [User['provider']] *)
Inductive t := google | email | anonymous.
End Provider.

(** The interfaces of [types.ts]. *)
Record User := {
  id : string;
  name : string;
  email : string;
  avatar : option string;
  provider : Provider.t
}.

Record NoteSection := {
  heading : string;
  contentPoints : list string;
  bulletPoints : option (list string);
  importantTerms : option (list string);
  imageDescription : option string
}.

Record SolvedQuestion := { question : string; solution : string }.

Record StudyNote := {
  topic : string;
  subject : string;
  classLevel : string;
  introduction : string;
  sections : list NoteSection;
  summary : string;
  examTips : list string;
  solvedQuestions : list SolvedQuestion;
  commonMistakes : list string;
  realWorldApplications : list string
}.

Inductive BookmarkType := topicType | sectionType.

Record Bookmark := {
  bm_id : string;
  bm_userId : string;
  bm_type : BookmarkType;
  bm_title : string;
  bm_subtitle : string;
  bm_timestamp : Z;
  bm_noteData : StudyNote;
  bm_sectionIndex : option Z
}.

#[global] Instance Provider_eq_dec : EqDecision Provider.t.
Proof. solve_decision. Defined.
#[global] Instance BookmarkType_eq_dec : EqDecision BookmarkType.
Proof. solve_decision. Defined.

(** The user object of the remote auth collaborator, as [mapUser] and the
    session handler read it. *)
Record SupabaseUser := {
  sb_id : string;
  sb_email : option string;
  full_name : option string;          (* user_metadata.full_name *)
  metadata_name : option string;      (* user_metadata.name *)
  avatar_url : option string;         (* user_metadata.avatar_url *)
  picture : option string;            (* user_metadata.picture *)
  app_provider : option string        (* app_metadata.provider *)
}.

(** The remote auth collaborator: what each of its calls answers. *)
Record SupabaseClient := {
  signInWithOAuth : Error + option string;   (* [error], or [data.url] *)
  signInWithPassword : string -> string -> Error + option SupabaseUser
}.

(** The calls the code makes on the remote auth collaborator. *)
Inductive RemoteCall :=
| CallSignInWithOAuth
| CallSignInWithPassword (email password : string)
| CallSignOut
| CallOnAuthStateChange.

(** The text stored under [STORAGE_KEY_GUEST]: [JSON.stringify] of a user,
    which [JSON.parse] gives back, or a text that [JSON.parse] rejects. *)
Inductive GuestText :=
| Stringified (u : User)
| Unparseable (raw : string).

(** [localStorage], by key.  The bookmarks blob is only ever written by
    [JSON.stringify] of the map the code holds, so it is kept parsed. *)
Record LocalStorage := {
  scholr_guest_session : option GuestText;
  scholr_bookmarks : option (gmap string (list Bookmark))
}.

Record World := {
  localStorage : LocalStorage;
  remoteCalls : list RemoteCall
}.

Definition setGuest (g : option GuestText) (w : World) : World :=
  {| localStorage :=
       {| scholr_guest_session := g;
          scholr_bookmarks := scholr_bookmarks (localStorage w) |};
     remoteCalls := remoteCalls w |}.

Definition call (c : RemoteCall) (w : World) : World :=
  {| localStorage := localStorage w; remoteCalls := remoteCalls w ++ [c] |}.

(** Truthiness of [localStorage.getItem(STORAGE_KEY_GUEST)]. *)
Definition guestPresent (w : World) : bool :=
  match scholr_guest_session (localStorage w) with
  | None | Some (Unparseable EmptyString) => false
  | Some _ => true
  end.

(** [a || b] on strings that may be [undefined]. *)
Definition orElse (a : option string) (b : string) : string :=
  if truthy a then default EmptyString a else b.

Definition mapUser (sbUser : SupabaseUser) (provider : Provider.t) : User :=
  {| id := sb_id sbUser;
     name := orElse (full_name sbUser) (orElse (metadata_name sbUser) "Student");
     email := orElse (sb_email sbUser) EmptyString;
     avatar :=
       Some (orElse (avatar_url sbUser)
               (orElse (picture sbUser)
                  ("https://api.dicebear.com/7.x/avataaars/svg?seed="
                   +:+ sb_id sbUser)));
     provider := provider |}.

(** [n.toString()] for an integer. *)
Definition toString (n : Z) : string := NilZero.string_of_int (Z.to_int n).

(** [s.slice(-6)]: the last six characters, or all of a shorter [s]. *)
Definition sliceLast6 (s : string) : string :=
  String.substring (String.length s - 6)%nat 6%nat s.

Section Auth.
(** The constant at the top of the file and what [createClient] returns
    ([None]: it threw, and [supabase] stayed [null]). *)
Variable supabaseUrl : string.
Variable createClient : option SupabaseClient.

Definition isFirebaseConfigured : bool :=
  negb (String.eqb supabaseUrl "YOUR_SUPABASE_URL_HERE").

Definition supabase : option SupabaseClient :=
  if isFirebaseConfigured then createClient else None.

Definition guestUser (now : Z) : User :=
  {| id := "guest-" +:+ sliceLast6 (toString now);
     name := "Guest Student";
     email := EmptyString;
     avatar := Some "https://api.dicebear.com/7.x/avataaars/svg?seed=guest";
     provider := Provider.anonymous |}.

(** [loginUser]; [now] is what [Date.now()] returns. *)
Definition loginUser (providerName : Provider.t)
  (email password : option string) (now : Z) (w : World)
  : (Error + User) * World :=
  if bool_decide (providerName = Provider.anonymous) then
    (inr (guestUser now), setGuest (Some (Stringified (guestUser now))) w)
  else
    match (if isFirebaseConfigured then supabase else None) with
    | None =>
        (inl (newError "CONFIGURATION_ERROR: Please open 'services/userService.ts' and paste your Supabase URL and Key."), w)
    | Some client =>
        match providerName with
        | Provider.google =>
            let w1 := call CallSignInWithOAuth w in
            match signInWithOAuth client with
            | inl err => (inl err, w1)
            | inr url =>
                if truthy url then
                  (inr {| id := "pending"; name := "Redirecting...";
                          email := EmptyString; avatar := None;
                          provider := Provider.google |}, w1)
                else (inl (newError "OAuth failed to initialize"), w1)
            end
        | Provider.email =>
            if truthy email && truthy password then
              let e := default EmptyString email in
              let p := default EmptyString password in
              let w1 := call (CallSignInWithPassword e p) w in
              match signInWithPassword client e p with
              | inl err => (inl err, w1)
              | inr None => (inl (newError "No user returned"), w1)
              | inr (Some u) => (inr (mapUser u Provider.email), w1)
              end
            else (inl (newError "Email and password required"), w)
        | Provider.anonymous =>
            (inl (newError "Provider anonymous not supported"), w)
        end
    end.

(** [logoutUser]; [signOut] reports its failures in its result, which the
    code does not read. *)
Definition logoutUser (w : World) : World :=
  let w1 := setGuest None w in
  match supabase with
  | Some _ => call CallSignOut w1
  | None => w1
  end.

(** The callback handed to [subscribeToAuthChanges]: it is given a user or
    [null], and it may throw. *)
Record Callback := { throwsOn : option User -> bool }.

(** One call of [subscribeToAuthChanges]: what the callback was given
    before the call returned, whether the call threw, and whether a
    handler was left registered with the remote collaborator. *)
Record Subscribed := {
  yielded : list (option User);
  threw : bool;
  listening : bool
}.

Definition subscribeToAuthChanges (callback : Callback) (w : World)
  : Subscribed * World :=
  let guestSession := scholr_guest_session (localStorage w) in
  let present := guestPresent w in
  (* 1. the guest session, if any *)
  let '(given, w1) :=
    match guestSession with
    | Some (Stringified u) =>
        ([Some u], if throwsOn callback (Some u) then setGuest None w else w)
    | Some (Unparseable raw) =>
        ([], if present then setGuest None w else w)
    | None => ([], w)
    end in
  match supabase with
  | None =>
      if present then
        ({| yielded := given; threw := false; listening := false |}, w1)
      else
        ({| yielded := given ++ [None];
            threw := throwsOn callback None;
            listening := false |}, w1)
  | Some _ =>
      (* 2. the remote subscription *)
      ({| yielded := given; threw := false; listening := true |},
       call CallOnAuthStateChange w1)
  end.

(** The handler registered with [onAuthStateChange], run when the remote
    collaborator reports [session?.user]: what the callback is given. *)
Definition onAuthStateChange (session : option SupabaseUser) (w : World)
  : list (option User) :=
  if guestPresent w then []
  else
    match session with
    | Some u =>
        let provider :=
          if bool_decide (app_provider u = Some "email")
          then Provider.email else Provider.google in
        [Some (mapUser u provider)]
    | None => [None]
    end.

(** Subscriptions made one after the other. *)
Fixpoint subscribeAll (callbacks : list Callback) (w : World)
  : list Subscribed * World :=
  match callbacks with
  | [] => ([], w)
  | callback :: rest =>
      let '(r, w1) := subscribeToAuthChanges callback w in
      let '(rs, w2) := subscribeAll rest w1 in
      (r :: rs, w2)
  end.

End Auth.

(** *** Bookmarks *)

(** [JSON.parse(localStorage.getItem(STORAGE_KEY_BOOKMARKS) || '{}')] *)
Definition allBookmarksOf (ls : LocalStorage) : gmap string (list Bookmark) :=
  default ∅ (scholr_bookmarks ls).

(** [localStorage.setItem(STORAGE_KEY_BOOKMARKS, JSON.stringify(all))] *)
Definition setBookmarks (all : gmap string (list Bookmark))
  (ls : LocalStorage) : LocalStorage :=
  {| scholr_guest_session := scholr_guest_session ls;
     scholr_bookmarks := Some all |}.

Definition getBookmarks (userId : string) (ls : LocalStorage)
  : list Bookmark :=
  default [] (allBookmarksOf ls !! userId).

(** [noteData.sections[sectionIndex!]]: an element for an index inside the
    array, [undefined] for a missing, negative or too large one. *)
Definition sectionAt (noteData : StudyNote) (sectionIndex : option Z)
  : option NoteSection :=
  match sectionIndex with
  | Some i => if 0 <=? i then sections noteData !! Z.to_nat i else None
  | None => None
  end.

(** The test under [userBookmarks.some]. *)
Definition sameBookmark (noteData : StudyNote) (type : BookmarkType)
  (sectionIndex : option Z) (b : Bookmark) : bool :=
  bool_decide (bm_type b = type) &&
  String.eqb (topic (bm_noteData b)) (topic noteData) &&
  bool_decide (bm_sectionIndex b = sectionIndex).

(** [addBookmark]; [idTime] and [stampTime] are what the two calls of
    [Date.now()] return.  [None]: reading [.heading] of [undefined] threw
    while [newBookmark] was being built, before anything was stored. *)
Definition addBookmark (userId : string) (noteData : StudyNote)
  (type : BookmarkType) (sectionIndex : option Z) (idTime stampTime : Z)
  (ls : LocalStorage) : option (Bookmark * LocalStorage) :=
  let allBookmarks := allBookmarksOf ls in
  let userBookmarks := default [] (allBookmarks !! userId) in
  title ←
    match type with
    | topicType => Some (topic noteData)
    | sectionType => heading <$> sectionAt noteData sectionIndex
    end;
  let newBookmark :=
    {| bm_id := "bm_" +:+ toString idTime;
       bm_userId := userId;
       bm_type := type;
       bm_title := title;
       bm_subtitle :=
         match type with
         | topicType => classLevel noteData +:+ " â€¢ " +:+ subject noteData
         | sectionType => "From: " +:+ topic noteData
         end;
       bm_timestamp := stampTime;
       bm_noteData := noteData;
       bm_sectionIndex := sectionIndex |} in
  let exists_ :=
    existsb (sameBookmark noteData type sectionIndex) userBookmarks in
  if negb exists_ then
    Some (newBookmark,
          setBookmarks (<[userId := newBookmark :: userBookmarks]> allBookmarks)
            ls)
  else Some (newBookmark, ls).

Definition removeBookmark (userId bookmarkId : string) (ls : LocalStorage)
  : LocalStorage :=
  let allBookmarks := allBookmarksOf ls in
  match allBookmarks !! userId with
  | Some userBookmarks =>
      setBookmarks
        (<[userId := List.filter
                       (fun b => negb (String.eqb (bm_id b) bookmarkId))
                       userBookmarks]> allBookmarks) ls
  | None => ls
  end.

(** How many of a user's stored bookmarks carry the triple. *)
Definition stored (userId : string) (noteData : StudyNote)
  (type : BookmarkType) (sectionIndex : option Z) (ls : LocalStorage) : nat :=
  List.length
    (List.filter (sameBookmark noteData type sectionIndex)
       (getBookmarks userId ls)).

(** A bookmark that carries a triple of type, topic and section index,
    and the entries of a list that do; said of the stored fields, without
    the test of [addBookmark]. *)
Definition carries (type : BookmarkType) (topicName : string)
  (sectionIndex : option Z) (b : Bookmark) : Prop :=
  bm_type b = type /\
  topic (bm_noteData b) = topicName /\
  bm_sectionIndex b = sectionIndex.

#[global] Instance carries_dec type topicName sectionIndex b :
  Decision (carries type topicName sectionIndex b).
Proof. unfold carries. apply _. Defined.


(** The storages that [addBookmark] and [removeBookmark] produce, starting
    with no bookmarks blob. *)
Inductive reachable : LocalStorage -> Prop :=
| reachable_start ls :
    scholr_bookmarks ls = None -> reachable ls
| reachable_add ls userId noteData type sectionIndex idTime stampTime bm ls' :
    reachable ls ->
    addBookmark userId noteData type sectionIndex idTime stampTime ls
    = Some (bm, ls') ->
    reachable ls'
| reachable_remove ls userId bookmarkId :
    reachable ls -> reachable (removeBookmark userId bookmarkId ls).

Definition isBookmarked (userId topicName : string) (sectionIndex : option Z)
  (ls : LocalStorage) : bool :=
  existsb
    (fun b =>
       String.eqb (topic (bm_noteData b)) topicName &&
       bool_decide (bm_sectionIndex b = sectionIndex))
    (getBookmarks userId ls).

(** A stored bookmark that is what [addBookmark] builds for its owner: the
    owner's id, an id made of a timestamp, and the title of its type. *)
Definition wellFormed (userId : string) (b : Bookmark) : Prop :=
  bm_userId b = userId /\
  (exists idTime, bm_id b = "bm_" +:+ toString idTime) /\
  match bm_type b with
  | topicType => bm_title b = topic (bm_noteData b)
  | sectionType =>
      exists i section,
        bm_sectionIndex b = Some i /\ 0 <= i /\
        sections (bm_noteData b) !! Z.to_nat i = Some section /\
        bm_title b = heading section
  end.

End UserService.

(** ** App.tsx: the caller of [getChapters] *)

Module App.
Import Js.

Inductive View :=
| landing | class_select | subject_select | topic_select | notes | ai_tutor
| syllabus_analysis | bookmarks.

(** [ViewState] of [types.ts]; [error] is the property that the [catch]
    block of [handleSubjectSelect] adds to the state object. *)
Record ViewState := {
  currentView : View;
  previousView : option View;
  selectedClass : option Gemini.ClassLevel;
  selectedSubject : option Gemini.Subject;
  selectedTopic : option string;
  notesData : option UserService.StudyNote;
  availableChapters : option Gemini.Json;
  isLoadingChapters : option bool;
  tutorInitialQuery : option string;
  targetSectionIndex : option Z;
  error : option string
}.

Section Handlers.
Context {W : Type}.
Variable generateContent :
  Gemini.GenerateContentParameters -> W
  -> (Error + Gemini.GenerateContentResponse) * W.
Variable JSON_parse : string -> Error + Gemini.Json.

(** [handleSubjectSelect]: the view moves on at once with an empty chapter
    list, and the outcome of [getChapters] is merged into it, through
    [try]/[catch]. *)
Definition handleSubjectSelect (subject : Gemini.Subject)
  (viewState : ViewState) (w : W) : ViewState * W * list Gemini.event :=
  match selectedClass viewState with
  | None => (viewState, w, [])
  | Some currentClass =>
      let merged (chapters : Gemini.Json) (err : option string) :=
        {| currentView := topic_select;
           previousView := Some subject_select;
           selectedClass := selectedClass viewState;
           selectedSubject := Some subject;
           selectedTopic := selectedTopic viewState;
           notesData := notesData viewState;
           availableChapters := Some chapters;
           isLoadingChapters := Some false;
           tutorInitialQuery := tutorInitialQuery viewState;
           targetSectionIndex := targetSectionIndex viewState;
           error := err |} in
      match Gemini.getChapters generateContent JSON_parse
              currentClass subject w with
      | (inr categories, w1, tr) => (merged categories (error viewState), w1, tr)
      | (inl _, w1, tr) =>
          (merged (Gemini.JArray [])
             (Some "Could not load chapters automatically. Please type your topic below."),
           w1, tr)
      end
  end.

End Handlers.

(** *** Navigation *)

(** An object literal that names the view, and perhaps the one before it,
    and nothing else. *)
Definition only (view : View) (previous : option View) : ViewState :=
  {| currentView := view;
     previousView := previous;
     selectedClass := None;
     selectedSubject := None;
     selectedTopic := None;
     notesData := None;
     availableChapters := None;
     isLoadingChapters := None;
     tutorInitialQuery := None;
     targetSectionIndex := None;
     error := None |}.

(** [{...prev, currentView: view}] *)
Definition goTo (view : View) (prev : ViewState) : ViewState :=
  {| currentView := view;
     previousView := previousView prev;
     selectedClass := selectedClass prev;
     selectedSubject := selectedSubject prev;
     selectedTopic := selectedTopic prev;
     notesData := notesData prev;
     availableChapters := availableChapters prev;
     isLoadingChapters := isLoadingChapters prev;
     tutorInitialQuery := tutorInitialQuery prev;
     targetSectionIndex := targetSectionIndex prev;
     error := error prev |}.

Definition handleStartClassSelection : ViewState :=
  only class_select (Some landing).

Definition handleStartAITutor : ViewState := only ai_tutor (Some landing).

Definition handleStartSyllabus : ViewState :=
  only syllabus_analysis (Some landing).

Definition handleClassSelect (classLevel : Gemini.ClassLevel)
  (prev : ViewState) : ViewState :=
  {| currentView := subject_select;
     previousView := Some class_select;
     selectedClass := Some classLevel;
     selectedSubject := selectedSubject prev;
     selectedTopic := selectedTopic prev;
     notesData := notesData prev;
     availableChapters := availableChapters prev;
     isLoadingChapters := isLoadingChapters prev;
     tutorInitialQuery := tutorInitialQuery prev;
     targetSectionIndex := targetSectionIndex prev;
     error := error prev |}.

(** The two "back" buttons of the subject and topic screens. *)
Definition subjectOnBack (prev : ViewState) : ViewState :=
  goTo class_select prev.

Definition topicOnBack (prev : ViewState) : ViewState :=
  goTo subject_select prev.

(** The [onBack] handed to [NotesDisplay]. *)
Definition notesOnBack (prev : ViewState) : ViewState :=
  goTo (match previousView prev with
        | Some bookmarks => bookmarks
        | _ => topic_select
        end) prev.

(** The [onAskTutor] handed to [NotesDisplay]. *)
Definition onAskTutor (text : string) (prev : ViewState) : ViewState :=
  {| currentView := ai_tutor;
     previousView := Some notes;
     selectedClass := selectedClass prev;
     selectedSubject := selectedSubject prev;
     selectedTopic := selectedTopic prev;
     notesData := notesData prev;
     availableChapters := availableChapters prev;
     isLoadingChapters := isLoadingChapters prev;
     tutorInitialQuery := Some text;
     targetSectionIndex := targetSectionIndex prev;
     error := error prev |}.

(** The [onBack] handed to [AITutor]: [prev.previousView || 'landing']. *)
Definition tutorOnBack (prev : ViewState) : ViewState :=
  {| currentView := default landing (previousView prev);
     previousView := previousView prev;
     selectedClass := selectedClass prev;
     selectedSubject := selectedSubject prev;
     selectedTopic := selectedTopic prev;
     notesData := notesData prev;
     availableChapters := availableChapters prev;
     isLoadingChapters := isLoadingChapters prev;
     tutorInitialQuery := None;
     targetSectionIndex := targetSectionIndex prev;
     error := error prev |}.

(** The [onBack] handed to [SyllabusAnalysis] and to [BookmarksView]. *)
Definition syllabusOnBack (prev : ViewState) : ViewState := goTo landing prev.

Definition bookmarksOnBack : ViewState := only landing None.

(** The [onBookmarksClick] handed to [Layout]. *)
Definition onBookmarksClick (viewState : ViewState) : ViewState :=
  only bookmarks (Some (currentView viewState)).

(** The state of [App] that [generateNotesForTopic] and [resetHome] read
    and write, [error] being the one of [useState]. *)
Record AppState := {
  viewState : ViewState;
  loading : bool;
  errorState : option string;
  topicInput : string
}.

Definition resetHome (app : AppState) : AppState :=
  {| viewState := only landing None;
     loading := loading app;
     errorState := None;
     topicInput := EmptyString |}.

Section Notes.
Context {W : Type}.

(** [generateNotes], with its result read at the type its signature
    declares. *)
Variable generateNotes :
  Gemini.ClassLevel -> Gemini.Subject -> string -> W
  -> (Error + UserService.StudyNote) * W * list Gemini.event.

Definition generateNotesForTopic (topicName : string) (app : AppState) (w : W)
  : AppState * W * list Gemini.event :=
  match selectedClass (viewState app), selectedSubject (viewState app) with
  | Some classLevel, Some subject =>
      match generateNotes classLevel subject topicName w with
      | (inr note, w1, tr) =>
          ({| viewState :=
                {| currentView := notes;
                   previousView := Some topic_select;
                   selectedClass := selectedClass (viewState app);
                   selectedSubject := selectedSubject (viewState app);
                   selectedTopic := Some topicName;
                   notesData := Some note;
                   availableChapters := availableChapters (viewState app);
                   isLoadingChapters := isLoadingChapters (viewState app);
                   tutorInitialQuery := tutorInitialQuery (viewState app);
                   targetSectionIndex := None;
                   error := error (viewState app) |};
              loading := false;
              errorState := None;
              topicInput := topicInput app |}, w1, tr)
      | (inl _, w1, tr) =>
          ({| viewState := viewState app;
              loading := false;
              errorState :=
                Some "Failed to generate notes. Please try a different topic or check your connection.";
              topicInput := topicInput app |}, w1, tr)
      end
  | _, _ => (app, w, [])
  end.

End Notes.

(** The property of the view state that the selections are meant to keep:
    a subject is selected only together with a class. *)
Definition subjectHasClass (v : ViewState) : Prop :=
  selectedSubject v <> None -> selectedClass v <> None.

End App.

(** ** components/BookmarksView.tsx *)

Module BookmarksView.
Import Js UserService.

(** The effect that loads the list: [setBookmarks(getBookmarks(user.id))]. *)
Definition load (user : User) (ls : LocalStorage) : list Bookmark :=
  getBookmarks (id user) ls.

(** [handleDelete]: the bookmark is removed from the storage and from the
    list on the screen. *)
Definition handleDelete (user : User) (bookmarkId : string)
  (bookmarks : list Bookmark) (ls : LocalStorage)
  : list Bookmark * LocalStorage :=
  (List.filter (fun b => negb (String.eqb (bm_id b) bookmarkId)) bookmarks,
   removeBookmark (id user) bookmarkId ls).

End BookmarksView.

(** ** components/SyllabusAnalysis.tsx *)

Module SyllabusAnalysis.
Import Js.

(** What the component reads off a [File]: its MIME type; [content] stands
    for the rest. *)
Record File := { fileType : string; content : string }.

Record State := {
  file : option File;
  analysis : option string;
  loading : bool;
  errorMsg : option string
}.

(** The test of [handleFile]. *)
Definition accepted (f : File) : bool :=
  String.eqb (fileType f) "application/pdf" ||
  String.prefix "image/" (fileType f).

(** [handleFile]; a file of another type only raises an alert. *)
Definition handleFile (f : File) (st : State) : State :=
  if accepted f then
    {| file := Some f; analysis := None; loading := loading st;
       errorMsg := None |}
  else st.

(** The buttons "Remove" and "Upload Another Document". *)
Definition onRemove (st : State) : State :=
  {| file := None; analysis := analysis st; loading := loading st;
     errorMsg := None |}.

Definition onUploadAnother (st : State) : State :=
  {| file := None; analysis := None; loading := loading st;
     errorMsg := errorMsg st |}.

Section Analyze.
Context {W : Type}.
Variable generateContent :
  Gemini.GenerateContentParameters -> W
  -> (Error + Gemini.GenerateContentResponse) * W.
(** [convertToBase64]: what the [FileReader] makes of the file. *)
Variable convertToBase64 : File -> Error + string.

(** [error.message || "Failed to analyze syllabus. Please try again."] *)
Definition shownMessage (err : Error) : string :=
  if truthy (message err) then default EmptyString (message err)
  else "Failed to analyze syllabus. Please try again.".

Definition handleAnalyze (st : State) (w : W)
  : State * W * list Gemini.event :=
  match file st with
  | None => (st, w, [])
  | Some f =>
      let failed (err : Error) :=
        {| file := file st; analysis := analysis st; loading := false;
           errorMsg := Some (shownMessage err) |} in
      match convertToBase64 f with
      | inl err => (failed err, w, [])
      | inr base64 =>
          match Gemini.analyzeSyllabus generateContent base64 (fileType f) w
          with
          | (inr result, w1, tr) =>
              ({| file := file st; analysis := Some result; loading := false;
                  errorMsg := None |}, w1, tr)
          | (inl err, w1, tr) => (failed err, w1, tr)
          end
      end
  end.

(** The states the component goes through, from the one it starts in. *)
Inductive reachable : State -> Prop :=
| reachable_initial :
    reachable {| file := None; analysis := None; loading := false;
                 errorMsg := None |}
| reachable_file f st : reachable st -> reachable (handleFile f st)
| reachable_remove st : reachable st -> reachable (onRemove st)
| reachable_another st : reachable st -> reachable (onUploadAnother st)
| reachable_analyze st w :
    reachable st -> reachable (handleAnalyze st w).1.1.

End Analyze.

End SyllabusAnalysis.

(** ** components/AuthModal.tsx *)

Module AuthModal.
Import Js.

(** The modal and what it reports to [App]: whether it is open
    ([onClose] closes it) and the user handed to [onLoginSuccess]. *)
Record State := {
  isOpen : bool;
  loading : bool;
  error : option string;
  loggedIn : option UserService.User
}.

Section Handlers.
Variable supabaseUrl : string.
Variable createClient : option UserService.SupabaseClient.
(** [e.code], which a thrown value may carry. *)
Variable code : Error -> option string.

(** [handleError]: the message shown for a failure. *)
Definition handleError (e : Error) : string :=
  if bool_decide (code e = Some "auth/popup-closed-by-user")
  then "Login cancelled."
  else if bool_decide (code e = Some "auth/email-already-in-use")
  then "This email is already registered."
  else if bool_decide (code e = Some "auth/invalid-credential")
  then "Invalid email or password."
  else if bool_decide (code e = Some "auth/weak-password")
  then "Password should be at least 6 characters."
  else if messageIncludes e "CONFIGURATION_ERROR"
  then "Setup Needed: Open services/userService.ts and add your Firebase Config."
  else "Authentication failed.".

(** [handleSocialLogin]; [now] is what [Date.now()] returns. *)
Definition handleSocialLogin (provider : UserService.Provider.t) (now : Z)
  (st : State) (w : UserService.World) : State * UserService.World :=
  match UserService.loginUser supabaseUrl createClient provider None None
          now w with
  | (inr user, w1) =>
      ({| isOpen := false; loading := false; error := None;
          loggedIn := Some user |}, w1)
  | (inl e, w1) =>
      ({| isOpen := isOpen st; loading := false;
          error := Some (handleError e); loggedIn := loggedIn st |}, w1)
  end.

End Handlers.

End AuthModal.

(** ** components/MusicPlayer.tsx *)

Module MusicPlayer.

Record Track := { title : string; artist : string; url : string }.

Definition TRACKS : list Track :=
  [ {| title := "Algorithms"; artist := "Chad Crouch";
       url := "https://files.freemusicarchive.org/storage-freemusicarchive-org/music/ccCommunity/Chad_Crouch/Arps/Chad_Crouch_-_Algorithms.mp3" |};
    {| title := "Shipping Lanes"; artist := "Chad Crouch";
       url := "https://files.freemusicarchive.org/storage-freemusicarchive-org/music/ccCommunity/Chad_Crouch/Arps/Chad_Crouch_-_Shipping_Lanes.mp3" |};
    {| title := "Platformer"; artist := "Chad Crouch";
       url := "https://files.freemusicarchive.org/storage-freemusicarchive-org/music/ccCommunity/Chad_Crouch/Arps/Chad_Crouch_-_Platformer.mp3" |};
    {| title := "Starlight"; artist := "Chad Crouch";
       url := "https://files.freemusicarchive.org/storage-freemusicarchive-org/music/ccCommunity/Chad_Crouch/Arps/Chad_Crouch_-_Starlight.mp3" |} ].

(** The updaters of [currentTrack]; [%] is the remainder of JavaScript,
    which takes the sign of the dividend. *)
Definition handleNext (prev : Z) : Z :=
  Z.rem (prev + 1) (Z.of_nat (List.length TRACKS)).

Definition handlePrev (prev : Z) : Z :=
  Z.rem (prev - 1 + Z.of_nat (List.length TRACKS))
    (Z.of_nat (List.length TRACKS)).

(** [TRACKS[currentTrack]] *)
Definition trackAt (currentTrack : Z) : option Track :=
  if 0 <=? currentTrack then TRACKS !! Z.to_nat currentTrack else None.

End MusicPlayer.

(** ** Concrete inputs *)

Module Samples.
Import Js.

(** A remote side that answers every call with HTTP 429. *)
Definition status429 : Error :=
  {| name := "ApiError"; status := Some 429; message := None |}.
Definition busy : @Gemini.Operation unit unit := fun w => (inl status429, w).

(** A remote side that rejects every call for a reason that is no rate
    limit. *)
Definition forbidden : Error :=
  {| name := "ApiError"; status := Some 403;
     message := Some "API key not valid" |}.
Definition refusing : @Gemini.Operation unit unit := fun w => (inl forbidden, w).

(** The same two remote sides, and one that answers every call with HTTP
    503, behind [generateContent]. *)
Definition unavailable : Error :=
  {| name := "ApiError"; status := Some 503;
     message := Some "The model is overloaded." |}.

Definition remote (err : Error) (request : Gemini.GenerateContentParameters)
  (w : unit) : (Error + Gemini.GenerateContentResponse) * unit :=
  (inl err, w).

(** A remote side that answers without any text. *)
Definition silent (request : Gemini.GenerateContentParameters) (w : unit)
  : (Error + Gemini.GenerateContentResponse) * unit :=
  (inr {| Gemini.text := None |}, w).

Definition noParse (text : string) : Error + Gemini.Json :=
  inl {| name := "SyntaxError"; status := None;
         message := Some "Unexpected end of JSON input" |}.

(** An empty browser storage, with nothing said to the remote side yet. *)
Definition emptyStorage : UserService.LocalStorage :=
  {| UserService.scholr_guest_session := None;
     UserService.scholr_bookmarks := None |}.

Definition freshWorld : UserService.World :=
  {| UserService.localStorage := emptyStorage;
     UserService.remoteCalls := [] |}.

(** A subscriber that returns normally whatever it is given. *)
Definition quiet : UserService.Callback :=
  {| UserService.throwsOn := fun _ => false |}.

(** A note on photosynthesis, with two sections. *)
Definition photosynthesis : UserService.StudyNote :=
  {| UserService.topic := "Photosynthesis";
     UserService.subject := "Science";
     UserService.classLevel := "Class 10";
     UserService.introduction := "How plants make food.";
     UserService.sections :=
       [{| UserService.heading := "Light reaction";
           UserService.contentPoints := ["Happens in the thylakoids."];
           UserService.bulletPoints := None;
           UserService.importantTerms := None;
           UserService.imageDescription := None |};
        {| UserService.heading := "Dark reaction";
           UserService.contentPoints := ["Happens in the stroma."];
           UserService.bulletPoints := None;
           UserService.importantTerms := None;
           UserService.imageDescription := None |}];
     UserService.summary := "Light is turned into chemical energy.";
     UserService.examTips := [];
     UserService.solvedQuestions := [];
     UserService.commonMistakes := [];
     UserService.realWorldApplications := [] |}.

(** The storage once a guest has bookmarked the topic of that note. *)
Definition afterFirstAdd : UserService.LocalStorage :=
  default emptyStorage
    (snd <$> UserService.addBookmark "guest-000123" photosynthesis
               UserService.topicType None 1760000000123 1760000000123
               emptyStorage).

(** A tutor whose stream breaks after the first fragment. *)
Definition breaking : Tutor.Chat :=
  fun _ => Tutor.Streamed [Some "Photo"] (Some unavailable).

Definition greeted : Tutor.State :=
  {| Tutor.messages :=
       [{| Tutor.role := Tutor.model;
           Tutor.text := "Hello! I'm your AI Tutor. I can help you with any topic from Class 8 to 12. What are you studying today?" |}];
     Tutor.input := "What is photosynthesis?";
     Tutor.loading := false;
     Tutor.chatSessionRef := Some breaking |}.

(** A tutor that answers the question about Ohm's law, and that question
    only, in three fragments, the second without text; and a student who
    has typed that question. *)
Definition answeringOhm : Tutor.Chat :=
  fun message =>
    if String.eqb message "Explain Ohm's law" then
      Tutor.Streamed
        [Some "V = IR: "; None; Some "the current grows with the voltage."]
        None
    else Tutor.Rejected unavailable.

Definition askingOhm : Tutor.State :=
  {| Tutor.messages := Tutor.messages greeted;
     Tutor.input := "Explain Ohm's law";
     Tutor.loading := false;
     Tutor.chatSessionRef := Some answeringOhm |}.

(** A remote side, counted by the number of calls it has seen, that is busy
    for the first two calls and answers the third. *)
Definition recovering : @Gemini.Operation nat string :=
  fun calls =>
    if (calls <? 2)%nat then (inl status429, S calls)
    else (inr "ready", S calls).

(** A remote side that answers every call for notes with the same text. *)
Definition answeringWith (text : option string)
  (request : Gemini.GenerateContentParameters)
  (config : Gemini.GenerateContentConfig) (w : unit)
  : (Error + Gemini.GenerateContentResponse) * unit :=
  (inr {| Gemini.text := text |}, w).

(** A parser that accepts exactly the text of an empty object. *)
Definition parseEmptyObject (text : string) : Error + Gemini.Json :=
  if String.eqb text "{}" then inr (Gemini.JObject [])
  else inl {| name := "SyntaxError"; status := None;
              message := Some "Unexpected token" |}.

(** An answer that writes its exponents with carets, as a JSON string,
    and a parser that accepts exactly that string with the exponents
    rewritten. *)
Definition formulaText : string :=
  Gemini.doubleQuote +:+ "E = mc^2, c = 3 x 10^8 m s^-1" +:+ Gemini.doubleQuote.

Definition parseFormula (text : string) : Error + Gemini.Json :=
  if String.eqb text
       (Gemini.doubleQuote +:+ "E = mc², c = 3 x 10⁸ m s⁻¹"
        +:+ Gemini.doubleQuote)
  then inr (Gemini.JString "E = mc², c = 3 x 10⁸ m s⁻¹")
  else inl {| name := "SyntaxError"; status := None;
              message := Some "Unexpected token" |}.

(** A remote side that answers every request for chapters with the same
    text, and a parser that knows the text "null" only. *)
Definition chaptersText (text : string)
  (request : Gemini.GenerateContentParameters) (w : unit)
  : (Error + Gemini.GenerateContentResponse) * unit :=
  (inr {| Gemini.text := Some text |}, w).


(** A configured remote auth collaborator whose OAuth start succeeds and
    which knows no password. *)
Definition oauthClient : UserService.SupabaseClient :=
  {| UserService.signInWithOAuth :=
       inr (Some "https://accounts.google.com/o/oauth2/v2/auth");
     UserService.signInWithPassword :=
       fun _ _ =>
         inl {| name := "AuthApiError"; status := Some 400;
                message := Some "Invalid login credentials" |} |}.

(** A subscriber that throws whatever it is given. *)
Definition failing : UserService.Callback :=
  {| UserService.throwsOn := fun _ => true |}.

(** A storage whose guest entry has been damaged. *)
Definition damagedWorld : UserService.World :=
  {| UserService.localStorage :=
       {| UserService.scholr_guest_session :=
            Some (UserService.Unparseable "{id:");
          UserService.scholr_bookmarks := None |};
     UserService.remoteCalls := [] |}.


(** A second note, on another topic. *)
Definition respiration : UserService.StudyNote :=
  {| UserService.topic := "Respiration";
     UserService.subject := "Science";
     UserService.classLevel := "Class 10";
     UserService.introduction := "How cells release energy.";
     UserService.sections := [];
     UserService.summary := "Glucose is broken down.";
     UserService.examTips := [];
     UserService.solvedQuestions := [];
     UserService.commonMistakes := [];
     UserService.realWorldApplications := [] |}.

(** An answer to the request for chapters, the chapters in it, and a
    parser that knows that answer only. *)
Definition quoted (s : string) : string :=
  Gemini.doubleQuote +:+ s +:+ Gemini.doubleQuote.

Definition chaptersAnswer : string :=
  "{" +:+ quoted "categories" +:+ ":[{" +:+ quoted "category" +:+ ":"
  +:+ quoted "Physics" +:+ "," +:+ quoted "chapters" +:+ ":["
  +:+ quoted "Light" +:+ "," +:+ quoted "Electricity" +:+ "]}]}".

Definition scienceChapters : Gemini.Json :=
  Gemini.JArray
    [Gemini.JObject
       [("category", Gemini.JString "Physics");
        ("chapters",
         Gemini.JArray [Gemini.JString "Light"; Gemini.JString "Electricity"])]].

Definition parseChapters (text : string) : Error + Gemini.Json :=
  if String.eqb text chaptersAnswer
  then inr (Gemini.JObject [("categories", scienceChapters)])
  else inl {| name := "SyntaxError"; status := None;
              message := Some "Unexpected token" |}.

(** The subject screen of class 10, and what choosing Science there leads
    to with that answer. *)
Definition classChosen : App.ViewState :=
  App.handleClassSelect Gemini.Class10 App.handleStartClassSelection.

Definition scienceChosen : App.ViewState * unit * list Gemini.event :=
  App.handleSubjectSelect (chaptersText chaptersAnswer) parseChapters
    Gemini.Science classChosen ().

(** A notes view that was opened from the library of bookmarks. *)
Definition readingBookmark : App.ViewState :=
  {| App.currentView := App.notes;
     App.previousView := Some App.bookmarks;
     App.selectedClass := Some Gemini.Class10;
     App.selectedSubject := Some Gemini.Science;
     App.selectedTopic := Some "Photosynthesis";
     App.notesData := Some photosynthesis;
     App.availableChapters := None;
     App.isLoadingChapters := None;
     App.tutorInitialQuery := None;
     App.targetSectionIndex := Some 1;
     App.error := None |}.

(** The topic screen of Class 10 Science, and a notes service that fails. *)
Definition choosingTopic : App.AppState :=
  {| App.viewState :=
       {| App.currentView := App.topic_select;
          App.previousView := Some App.subject_select;
          App.selectedClass := Some Gemini.Class10;
          App.selectedSubject := Some Gemini.Science;
          App.selectedTopic := None;
          App.notesData := None;
          App.availableChapters := Some (Gemini.JArray []);
          App.isLoadingChapters := Some false;
          App.tutorInitialQuery := None;
          App.targetSectionIndex := None;
          App.error := None |};
     App.loading := false;
     App.errorState := None;
     App.topicInput := "Light" |}.

Definition notesUnavailable (c : Gemini.ClassLevel) (s : Gemini.Subject)
  (topic : string) (w : unit)
  : (Error + UserService.StudyNote) * unit * list Gemini.event :=
  (inl forbidden, w, [Gemini.Invoked]).

(** A syllabus as a PDF, chosen in the upload screen, and a reader that
    encodes any file as the same text. *)
Definition syllabus : SyllabusAnalysis.File :=
  {| SyllabusAnalysis.fileType := "application/pdf";
     SyllabusAnalysis.content := "%PDF-1.7" |}.

Definition syllabusChosen : SyllabusAnalysis.State :=
  {| SyllabusAnalysis.file := Some syllabus;
     SyllabusAnalysis.analysis := None;
     SyllabusAnalysis.loading := false;
     SyllabusAnalysis.errorMsg := None |}.

Definition encoded (f : SyllabusAnalysis.File) : Error + string :=
  inr "JVBERi0xLjc=".

(** The sign-in modal, just opened, and thrown values that carry no
    [code]. *)
Definition modalOpen : AuthModal.State :=
  {| AuthModal.isOpen := true; AuthModal.loading := false;
     AuthModal.error := None; AuthModal.loggedIn := None |}.

Definition noCode (e : Error) : option string := None.

End Samples.

(** * Properties *)

(** ** String concatenation *)

Module StringFacts.

Lemma app_cons c (a b : string) : String c a +:+ b = String c (a +:+ b).
Proof. reflexivity. Qed.

Lemma app_nil (b : string) : EmptyString +:+ b = b.
Proof. reflexivity. Qed.

Lemma app_empty_r (a : string) : a +:+ EmptyString = a.
Proof. induction a as [|x a IH]; [done|]. rewrite app_cons. f_equal. exact IH. Qed.

Lemma app_assoc_s (a b c : string) : (a +:+ b) +:+ c = a +:+ (b +:+ c).
Proof.
  induction a as [|x a IH]; [done|]. rewrite !app_cons. f_equal. exact IH.
Qed.

End StringFacts.

(** ** [retryAPI] *)

Module RetryFacts.
Import Js Gemini.

Section Facts.
Context {W T : Type}.
Implicit Types (operation : @Operation W T) (w : W).

(** The body of [retryAPI], as one equation. *)
Lemma retryAPI_unfold operation retries delay w :
  retryAPI operation retries delay w =
  match operation w with
  | (inr v, w1) => (inr v, w1, [Invoked])
  | (inl err, w1) =>
      if (retries >? 0) && rateLimited err then
        let '(r, w2, tr) := retryAPI operation (retries - 1) (delay * 2) w1 in
        (r, w2, Invoked :: Slept delay :: tr)
      else (inl err, w1, [Invoked])
  end.
Proof.
  funelim (retryAPI operation retries delay w); rewrite Heq; try rewrite e;
    reflexivity.
Qed.

(** With [n] retries left and an operation that keeps being rate limited,
    the call follows the whole schedule and rejects with a failure of the
    operation. *)
Lemma retryAPI_backoff (P : Error -> Prop) operation (n : nat) delay w :
  (forall err, P err -> rateLimited err = true) ->
  alwaysFailsWith P operation ->
  exists err w',
    retryAPI operation (Z.of_nat n) delay w = (inl err, w', backoff n delay)
    /\ P err.
Proof.
  intros HP Hop. revert delay w.
  induction n as [|n IH]; intros delay w; rewrite retryAPI_unfold;
    destruct (Hop w) as (err & w1 & -> & Herr); rewrite (HP _ Herr).
  - exists err, w1. done.
  - assert ((Z.of_nat (S n) >? 0) = true) as -> by (apply Z.gtb_lt; lia).
    cbn [andb].
    replace (Z.of_nat (S n) - 1) with (Z.of_nat n) by lia.
    destruct (IH (delay * 2) w1) as (err' & w' & -> & Herr').
    exists err', w'. done.
Qed.

Lemma invocations_backoff (n : nat) delay :
  invocations (backoff n delay) = Z.of_nat n + 1.
Proof.
  unfold invocations. revert delay.
  induction n as [|n IH]; intros delay; [done|].
  specialize (IH (delay * 2)). cbn in *. lia.
Qed.

Lemma sleeps_backoff_length (n : nat) delay :
  List.length (sleeps (backoff n delay)) = n.
Proof.
  unfold sleeps. revert delay.
  induction n as [|n IH]; intros delay; [done|].
  cbn. by rewrite IH.
Qed.

Lemma sleeps_backoff_lookup (n k : nat) delay :
  (k < n)%nat -> sleeps (backoff n delay) !! k = Some (delay * 2 ^ Z.of_nat k).
Proof.
  unfold sleeps. revert delay k.
  induction n as [|n IH]; intros delay k Hk; [lia|].
  destruct k as [|k]; cbn.
  - f_equal. lia.
  - rewrite IH by lia. f_equal.
    rewrite Nat2Z.inj_succ, Z.pow_succ_r by lia. lia.
Qed.

End Facts.

Lemma invocations_retry delay tr :
  invocations (Invoked :: Slept delay :: tr) = 1 + invocations tr.
Proof. unfold invocations. cbn. lia. Qed.

(** Counting the applications of the operation changes nothing in what
    [retryAPI] does, and the count it arrives at is the number of
    invocations in the trace: the trace records the applications of the
    operation, each of them and no other. *)
Lemma retryAPI_counted {W T} (operation : @Operation W T) retries delay w calls :
  retryAPI (counted operation) retries delay (w, calls) =
  let '(r, w', tr) := retryAPI operation retries delay w in
  (r, (w', calls + invocations tr), tr).
Proof.
  remember (Z.to_nat retries) as n eqn:Hn.
  revert retries delay w calls Hn.
  induction (lt_wf n) as [n _ IH]. intros retries delay w calls ->.
  rewrite (retryAPI_unfold (counted operation)), (retryAPI_unfold operation).
  unfold counted at 1.
  destruct (operation w) as [[err|v] w1]; [|done].
  destruct (Z.gtb_spec retries 0) as [Hpos|Hle]; [|done].
  destruct (rateLimited err); [|done].
  cbn [andb].
  rewrite (IH (Z.to_nat (retries - 1)) ltac:(lia) (retries - 1) (delay * 2)
             w1 (calls + 1) eq_refl).
  destruct (retryAPI operation (retries - 1) (delay * 2) w1) as [[r w'] tr].
  rewrite invocations_retry. do 2 f_equal. f_equal. lia.
Qed.

Section Budget.
Context {W T : Type}.
Implicit Types (operation : @Operation W T) (w : W).

(** C1. If every invocation of the wrapped operation fails with the
    signature of a rate limit and [maxRetries = N], then [retryAPI] invokes
    the operation exactly [N + 1] times and sleeps [N] times, and the delay
    slept before the [k]-th retry is [initialDelay * 2^(k-1)].  The
    invocations are counted by the operation itself: run on the operation
    with a counter, which starts at zero, [retryAPI] does what it does on
    the operation alone and leaves the counter at [N + 1]. *)
Theorem retryAPI_exhausts_budget operation (N initialDelay : Z) w :
  0 <= N ->
  alwaysRateLimited operation ->
  let '(result, (w', calls), tr) :=
    retryAPI (counted operation) N initialDelay (w, 0) in
  retryAPI operation N initialDelay w = (result, w', tr) /\
  calls = N + 1 /\
  invocations tr = N + 1 /\
  List.length (sleeps tr) = Z.to_nat N /\
  forall k, 1 <= k <= N ->
    sleeps tr !! Z.to_nat (k - 1) = Some (initialDelay * 2 ^ (k - 1)).
Proof.
  intros HN Hop. rewrite retryAPI_counted.
  destruct (retryAPI_backoff _ operation (Z.to_nat N) initialDelay w
              (fun _ H => H) Hop) as (err & w' & Hrun & _).
  rewrite Z2Nat.id in Hrun by done. rewrite Hrun.
  rewrite invocations_backoff.
  split; [done|]. split; [lia|]. split; [lia|]. split.
  - apply sleeps_backoff_length.
  - intros k Hk. rewrite sleeps_backoff_lookup by lia.
    by rewrite Z2Nat.id by lia.
Qed.

(** C2. If an invocation fails with a failure that does not carry the
    signature of a rate limit, or fails while no retry is left, then
    [retryAPI] stops there: that invocation is the only one it makes from
    this point, it does not sleep, and it rejects with the very failure the
    operation threw, in the world the operation left. *)
Theorem retryAPI_propagates_failure operation (retries delay : Z) w err w1 :
  operation w = (inl err, w1) ->
  rateLimited err = false \/ retries <= 0 ->
  let '(result, w', tr) := retryAPI operation retries delay w in
  result = inl err /\ w' = w1 /\ invocations tr = 1 /\ sleeps tr = [].
Proof.
  intros Hop Hstop.
  rewrite retryAPI_unfold, Hop.
  destruct Hstop as [-> | Hle].
  - by rewrite andb_false_r.
  - assert ((retries >? 0) = false) as ->; [|done].
    rewrite Z.gtb_ltb. apply Z.ltb_ge. exact Hle.
Qed.

End Budget.

Lemma retryAPI_exhausts_budget_witness :
  let '(result, (w', calls), tr) :=
    retryAPI (counted Samples.busy) 3 2000 ((), 0) in
  retryAPI Samples.busy 3 2000 () = (result, w', tr) /\
  calls = 3 + 1 /\
  invocations tr = 3 + 1 /\
  List.length (sleeps tr) = Z.to_nat 3 /\
  forall k, 1 <= k <= 3 ->
    sleeps tr !! Z.to_nat (k - 1) = Some (2000 * 2 ^ (k - 1)).
Proof.
  apply (retryAPI_exhausts_budget Samples.busy 3 2000 ()).
  - lia.
  - intros w. exists Samples.status429, w. split; reflexivity.
Defined.

Lemma retryAPI_propagates_failure_witness :
  let '(result, w', tr) := retryAPI Samples.refusing 3 2000 () in
  result = inl Samples.forbidden /\ w' = () /\
  invocations tr = 1 /\ sleeps tr = [].
Proof.
  apply (retryAPI_propagates_failure Samples.refusing 3 2000 ()).
  - reflexivity.
  - left. reflexivity.
Defined.

End RetryFacts.

(** ** [replaceSuperscripts] *)

Module SuperscriptFacts.
Import Js Gemini StringFacts.

(** Case analysis on a character by its eight bits. *)
Ltac by_bits c := destruct c as [[] [] [] [] [] [] [] []]; try reflexivity.

Lemma matchCaret_cons c rest :
  matchCaret (String c rest) =
  if Ascii.eqb c "^" then
    match exponentRun rest with
    | (EmptyString, _) => None
    | (run, after) => Some (run, after)
    end
  else None.
Proof. by_bits c. Qed.

(** The body of [replaceSuperscripts], as one equation. *)
Lemma replaceSuperscripts_unfold text :
  replaceSuperscripts text =
  match matchCaret text with
  | Some (m, after) => replacer m +:+ replaceSuperscripts after
  | None =>
      match text with
      | EmptyString => EmptyString
      | String c rest => String c (replaceSuperscripts rest)
      end
  end.
Proof.
  funelim (replaceSuperscripts text).
  - rewrite e. reflexivity.
  - reflexivity.
  - rewrite e. reflexivity.
Qed.

(** The greedy run stops where the class stops. *)
Lemma exponentRun_none s :
  startsWithExponentChar s = false -> exponentRun s = (EmptyString, s).
Proof. destruct s as [|c s]; simpl; [done|]. by intros ->. Qed.

Lemma exponentRun_app a X :
  startsWithExponentChar X = false ->
  exponentRun (a +:+ X) = ((exponentRun a).1, (exponentRun a).2 +:+ X).
Proof.
  intros HX. induction a as [|c a IH].
  - rewrite app_nil. by apply exponentRun_none.
  - rewrite app_cons. simpl. destruct (isExponentChar c); [|done].
    rewrite IH. by destruct (exponentRun a).
Qed.

Lemma exponentRun_all run b :
  allExponentChars run = true ->
  startsWithExponentChar b = false ->
  exponentRun (run +:+ b) = (run, b).
Proof.
  intros Hrun Hb. induction run as [|c run IH].
  - rewrite app_nil. by apply exponentRun_none.
  - rewrite app_cons. simpl in *.
    apply andb_prop in Hrun as [-> Hrun]. by rewrite IH.
Qed.

Lemma exponentRun_class s : allExponentChars (exponentRun s).1 = true.
Proof.
  induction s as [|c s IH]; simpl; [done|].
  destruct (isExponentChar c) eqn:E; [|done].
  destruct (exponentRun s). simpl in *. by rewrite E.
Qed.

Lemma matchCaret_class s m after :
  matchCaret s = Some (m, after) ->
  allExponentChars m = true /\ m <> EmptyString.
Proof.
  destruct s as [|c s]; [done|]. rewrite matchCaret_cons.
  destruct (Ascii.eqb c "^"); [|done].
  pose proof (exponentRun_class s) as Hc.
  destruct (exponentRun s) as [[|x r] t]; [done|].
  intros [= <- <-]. done.
Qed.

Lemma matchCaret_app c a X :
  startsWithExponentChar X = false ->
  matchCaret (String c a +:+ X) =
  match matchCaret (String c a) with
  | Some (m, after) => Some (m, after +:+ X)
  | None => None
  end.
Proof.
  intros HX. rewrite app_cons, !matchCaret_cons.
  destruct (Ascii.eqb c "^"); [|done].
  rewrite exponentRun_app by done.
  destruct (exponentRun a) as [[|x r] t]; done.
Qed.

(** A text is rewritten piecewise wherever the cut cannot split a match. *)
Lemma replaceSuperscripts_app a X :
  startsWithExponentChar X = false ->
  replaceSuperscripts (a +:+ X)
  = replaceSuperscripts a +:+ replaceSuperscripts X.
Proof.
  intros HX. remember (String.length a) as n eqn:Hn.
  revert a Hn. induction (lt_wf n) as [n _ IH]. intros a ->.
  destruct a as [|c a].
  - by rewrite app_nil, (replaceSuperscripts_unfold EmptyString).
  - rewrite (replaceSuperscripts_unfold (String c a +:+ X)),
      (replaceSuperscripts_unfold (String c a)), matchCaret_app by done.
    destruct (matchCaret (String c a)) as [[m after]|] eqn:Hm.
    + apply matchCaret_length in Hm.
      rewrite (IH _ Hm after eq_refl). by rewrite app_assoc_s.
    + rewrite app_cons. rewrite (IH (String.length a)); [done| |done].
      simpl. lia.
Qed.

(** Text without an occurrence is left as it is. *)
Lemma replaceSuperscripts_id s :
  hasCaretExponent s = false -> replaceSuperscripts s = s.
Proof.
  induction s as [|c s IH]; intros H.
  - by rewrite replaceSuperscripts_unfold.
  - simpl in H. apply orb_false_elim in H as [Hc Hs].
    rewrite replaceSuperscripts_unfold, matchCaret_cons.
    destruct (Ascii.eqb c "^"); simpl in Hc.
    + rewrite exponentRun_none by done. by rewrite IH.
    + by rewrite IH.
Qed.

(** What the replacer emits holds no caret and begins with no character
    of the class. *)
Lemma noCaret_app a b : noCaret (a +:+ b) = noCaret a && noCaret b.
Proof.
  induction a as [|c a IH]; [done|]. rewrite app_cons. simpl.
  by rewrite IH, andb_assoc.
Qed.

Lemma replacer_cons c m :
  replacer (String c m) =
  (if truthy (map c) then default EmptyString (map c) else String c EmptyString)
  +:+ replacer m.
Proof. reflexivity. Qed.

Lemma replacer_char c :
  isExponentChar c = true ->
  let out :=
    if truthy (map c) then default EmptyString (map c) else String c EmptyString
  in noCaret out = true /\ startsWithExponentChar out = false
     /\ out <> EmptyString.
Proof. by_bits c; intros H; try discriminate H; done. Qed.

Lemma replacer_noCaret m :
  allExponentChars m = true -> noCaret (replacer m) = true.
Proof.
  induction m as [|c m IH]; [done|]. simpl allExponentChars.
  intros [Hc Hm]%andb_prop. rewrite replacer_cons, noCaret_app, IH by done.
  destruct (replacer_char c Hc) as (-> & _). done.
Qed.

Lemma startsWith_app a b :
  a <> EmptyString ->
  startsWithExponentChar (a +:+ b) = startsWithExponentChar a.
Proof. by destruct a. Qed.

Lemma replacer_start m after :
  allExponentChars m = true -> m <> EmptyString ->
  startsWithExponentChar (replacer m +:+ after) = false.
Proof.
  destruct m as [|c m]; [done|]. simpl allExponentChars.
  intros [Hc Hm]%andb_prop _. rewrite replacer_cons, app_assoc_s.
  destruct (replacer_char c Hc) as (_ & Hs & Hne).
  by rewrite startsWith_app.
Qed.

Lemma hasCaretExponent_app u t :
  noCaret u = true ->
  hasCaretExponent (u +:+ t) = hasCaretExponent t.
Proof.
  intros Hu. induction u as [|c u IH]; [done|].
  rewrite app_cons. simpl in *. apply andb_prop in Hu as [Hc Hu].
  destruct (Ascii.eqb c "^"); [done|]. simpl. by apply IH.
Qed.

(** Rewriting puts no character of the class at the head of a text that
    had none there. *)
Lemma replaceSuperscripts_start s :
  startsWithExponentChar s = false ->
  startsWithExponentChar (replaceSuperscripts s) = false.
Proof.
  intros Hs. rewrite replaceSuperscripts_unfold.
  destruct (matchCaret s) as [[m after]|] eqn:Hm.
  - apply matchCaret_class in Hm as [Hc Hne]. by apply replacer_start.
  - by destruct s.
Qed.

(** No occurrence is left in a rewritten text. *)
Lemma replaceSuperscripts_clean s :
  hasCaretExponent (replaceSuperscripts s) = false.
Proof.
  remember (String.length s) as n eqn:Hn.
  revert s Hn. induction (lt_wf n) as [n _ IH]. intros s ->.
  rewrite replaceSuperscripts_unfold.
  destruct (matchCaret s) as [[m after]|] eqn:Hm.
  - pose proof (matchCaret_class _ _ _ Hm) as [Hc _].
    rewrite hasCaretExponent_app by by apply replacer_noCaret.
    apply matchCaret_length in Hm. by apply (IH _ Hm).
  - destruct s as [|c s]; [done|]. simpl.
    rewrite (IH (String.length s)); [|simpl; lia|done].
    rewrite orb_false_r. rewrite matchCaret_cons in Hm.
    destruct (Ascii.eqb c "^"); [|done]. simpl.
    apply replaceSuperscripts_start.
    destruct s as [|d s]; [done|]. simpl in *.
    destruct (isExponentChar d); [|done].
    by destruct (exponentRun s).
Qed.

(** The class of the regular expression and the table of the replacer are
    the characters and the table of the specification. *)
Lemma isExponentChar_characters c :
  isExponentChar c = bool_decide (c ∈ Exponents.characters).
Proof. by_bits c. Qed.

Lemma replacer_superscripts m : replacer m = Exponents.superscripts m.
Proof.
  induction m as [|c m IH]; [done|].
  rewrite replacer_cons, IH. cbn [Exponents.superscripts]. f_equal.
  by_bits c.
Qed.

Lemma allExponentChars_isRun run :
  Forall (fun c => c ∈ Exponents.characters) (list_ascii_of_string run) ->
  allExponentChars run = true.
Proof.
  induction run as [|c run IH]; [done|]. cbn.
  intros [Hc Hrun]%Forall_cons. rewrite IH by done.
  by rewrite isExponentChar_characters, bool_decide_eq_true_2.
Qed.

Lemma startsWithExponentChar_continues s :
  startsWithExponentChar s = true <-> Exponents.continues s.
Proof.
  destruct s as [|c s]; cbn.
  - split; [done|]. by intros (c & rest & ? & _).
  - rewrite isExponentChar_characters, bool_decide_eq_true. split.
    + intros Hc. by exists c, s.
    + by intros (c' & rest & [= <- <-] & Hc).
Qed.

Lemma hasCaretExponent_occurs s :
  hasCaretExponent s = true <-> Exponents.occurs s.
Proof.
  induction s as [|x s IH]; cbn [hasCaretExponent].
  - split; [done|]. intros (a & b & H & _). by destruct a.
  - rewrite orb_true_iff, andb_true_iff, IH, startsWithExponentChar_continues.
    split.
    + intros [[->%Ascii.eqb_eq Hs] | (a & b & -> & Hb)].
      * by exists EmptyString, s.
      * by exists (String x a), b.
    + intros (a & b & H & Hb). destruct a as [|y a].
      * rewrite app_nil, app_cons, app_nil in H. injection H as -> ->.
        left. by rewrite Ascii.eqb_refl.
      * rewrite app_cons in H. injection H as -> ->.
        right. by exists a, b.
Qed.

Lemma not_occurs s : ~ Exponents.occurs s -> hasCaretExponent s = false.
Proof.
  intros H. apply not_true_is_false. by rewrite hasCaretExponent_occurs.
Qed.

(** No caret followed by a digit or a sign is left in a rewritten text. *)
Lemma replaceSuperscripts_no_occurrence s :
  ~ Exponents.occurs (replaceSuperscripts s).
Proof.
  rewrite <- hasCaretExponent_occurs.
  by rewrite replaceSuperscripts_clean.
Qed.

(** C3. [replaceSuperscripts] rewrites every caret that is followed by a
    run of digits and signs into the superscripts of the run, and copies
    everything else.  The characters, the superscripts and the occurrences
    are the ones of the specification, spelled out in [Exponents]: a text
    is rewritten piece by piece around each caret that a longest run of
    characters from "0123456789+-" follows, the run giving its
    superscripts; a text in which no caret is followed by such a character
    is returned as it is; a caret followed by all twelve characters gives
    the twelve superscripts; the two examples of the specification come out
    as stated, and their results, which hold superscripts already, are left
    as they are; and in the result no caret is followed by such a character
    any more, so that rewriting it again changes nothing. *)
Theorem replaceSuperscripts_spec :
  (forall a run b,
     Exponents.isRun run -> ~ Exponents.continues b ->
     replaceSuperscripts (a +:+ "^" +:+ run +:+ b)
     = replaceSuperscripts a +:+ Exponents.superscripts run
       +:+ replaceSuperscripts b) /\
  (forall s, ~ Exponents.occurs s -> replaceSuperscripts s = s) /\
  replaceSuperscripts "^0123456789+-" = "⁰¹²³⁴⁵⁶⁷⁸⁹⁺⁻" /\
  replaceSuperscripts "x^2 + y^-1" = "x² + y⁻¹" /\
  replaceSuperscripts "10^-6" = "10⁻⁶" /\
  replaceSuperscripts "x² + y⁻¹, 10⁻⁶" = "x² + y⁻¹, 10⁻⁶" /\
  (forall s, ~ Exponents.occurs (replaceSuperscripts s)) /\
  (forall s, replaceSuperscripts (replaceSuperscripts s)
             = replaceSuperscripts s).
Proof.
  split; [|split; [|split; [|split; [|split; [|split; [|split]]]]]].
  - intros a run b [Hne Hrun%allExponentChars_isRun] Hb.
    assert (startsWithExponentChar b = false) as Hb'.
    { apply not_true_is_false. by rewrite startsWithExponentChar_continues. }
    rewrite replaceSuperscripts_app by done. f_equal.
    rewrite replaceSuperscripts_unfold, app_cons, app_nil, matchCaret_cons.
    rewrite exponentRun_all by done. rewrite <- replacer_superscripts.
    by destruct run.
  - intros s Hs. by apply replaceSuperscripts_id, not_occurs.
  - vm_compute. reflexivity.
  - vm_compute. reflexivity.
  - vm_compute. reflexivity.
  - vm_compute. reflexivity.
  - apply replaceSuperscripts_no_occurrence.
  - intros s. apply replaceSuperscripts_id, replaceSuperscripts_clean.
Qed.

Lemma replaceSuperscripts_spec_witness :
  replaceSuperscripts ("E = mc" +:+ "^" +:+ "2" +:+ " and 10^-6 m")
  = replaceSuperscripts "E = mc" +:+ "²"
    +:+ replaceSuperscripts " and 10^-6 m".
Proof.
  apply (proj1 replaceSuperscripts_spec "E = mc" "2" " and 10^-6 m").
  - split; [discriminate|]. repeat constructor.
  - intros (c & rest & [= <- <-] & Hc).
    exact (bool_decide_eq_false_1
             (" "%char ∈ Exponents.characters) eq_refl Hc).
Defined.

End SuperscriptFacts.

(** ** [getChapters] and [analyzeSyllabus] *)

Module RemoteFacts.
Import Js Gemini RetryFacts.

Lemma tooManyRequests_rateLimited err :
  tooManyRequests err = true -> rateLimited err = true.
Proof.
  unfold tooManyRequests, rateLimited.
  destruct (statusIs err 429), (messageIncludes err "429"); try done.
  all: by rewrite ?orb_true_r.
Qed.

Section Facts.
Context {W : Type}.
Variable generateContent :
  GenerateContentParameters -> W -> (Error + GenerateContentResponse) * W.
Variable JSON_parse : string -> Error + Json.

#[local] Abbreviation getChapters := (getChapters generateContent JSON_parse).
#[local] Abbreviation chaptersOperation :=
  (chaptersOperation generateContent JSON_parse).
#[local] Abbreviation handleSubjectSelect :=
  (App.handleSubjectSelect generateContent JSON_parse).
#[local] Abbreviation analyzeSyllabus := (analyzeSyllabus generateContent).
#[local] Abbreviation analysisOperation := (analysisOperation generateContent).

Lemma chaptersOperation_fails P classLevel subject :
  remoteAlwaysFailsWith generateContent P (chaptersRequest classLevel subject) ->
  alwaysFailsWith P (chaptersOperation classLevel subject).
Proof.
  intros H w. destruct (H w) as (err & w1 & Hg & HP).
  exists err, w1. unfold Gemini.chaptersOperation. by rewrite Hg.
Qed.

Lemma analysisOperation_fails P fileBase64 mimeType :
  remoteAlwaysFailsWith generateContent P (analysisRequest fileBase64 mimeType) ->
  alwaysFailsWith P (analysisOperation fileBase64 mimeType).
Proof.
  intros H w. destruct (H w) as (err & w1 & Hg & HP).
  exists err, w1. unfold Gemini.analysisOperation. by rewrite Hg.
Qed.

(** C4, as the code has it.  For every class and subject: when the response
    of the remote collaborator carries no content, [getChapters] resolves
    with the empty sequence after one call; when the call fails, it does
    not: a failure without the signature of a rate limit is thrown on to
    the caller at once, and a remote side that keeps being rate limited
    makes [getChapters] reject after the whole schedule of three retries.
    It is the caller, [handleSubjectSelect], that catches the failure: it
    ends with an empty chapter list, the loading flag cleared and the
    message for typing the topic by hand. *)
Theorem getChapters_outcomes classLevel subject w :
  (forall response w1,
     generateContent (chaptersRequest classLevel subject) w = (inr response, w1) ->
     truthy (text response) = false ->
     getChapters classLevel subject w = (inr (JArray []), w1, [Invoked])) /\
  (forall err w1,
     generateContent (chaptersRequest classLevel subject) w = (inl err, w1) ->
     rateLimited err = false ->
     getChapters classLevel subject w = (inl err, w1, [Invoked])) /\
  (remoteAlwaysFailsWith generateContent (fun err => rateLimited err = true)
     (chaptersRequest classLevel subject) ->
   exists err w',
     getChapters classLevel subject w = (inl err, w', backoff 3 2000)
     /\ rateLimited err = true) /\
  (forall viewState err w1 tr,
     App.selectedClass viewState = Some classLevel ->
     getChapters classLevel subject w = (inl err, w1, tr) ->
     exists viewState',
       handleSubjectSelect subject viewState w = (viewState', w1, tr) /\
       App.currentView viewState' = App.topic_select /\
       App.availableChapters viewState' = Some (JArray []) /\
       App.isLoadingChapters viewState' = Some false /\
       App.error viewState' =
         Some "Could not load chapters automatically. Please type your topic below.").
Proof.
  unfold Gemini.getChapters. split; [|split; [|split]].
  - intros response w1 Hg Htext.
    rewrite retryAPI_unfold. unfold Gemini.chaptersOperation at 1.
    by rewrite Hg, Htext.
  - intros err w1 Hg Herr.
    rewrite retryAPI_unfold. unfold Gemini.chaptersOperation at 1.
    by rewrite Hg, Herr, andb_false_r.
  - intros H%chaptersOperation_fails.
    apply (retryAPI_backoff _ _ 3 2000 w (fun _ E => E) H).
  - intros viewState err w1 tr Hclass Hrun.
    unfold App.handleSubjectSelect, Gemini.getChapters.
    rewrite Hclass, Hrun. by eexists.
Qed.

(** C7, as the code has it.  [analyzeSyllabus] fails with "No analysis
    generated" when the remote collaborator returns no text.  A failure
    that leaves [retryAPI] with status 429, or with "429" in its message, is
    replaced by the high-traffic failure; every other failure is thrown on
    unchanged.  So a remote side that keeps answering 429 ends, after the
    three retries, in the high-traffic failure, and one that keeps failing
    with another signature of a rate limit (503, RESOURCE_EXHAUSTED, quota)
    ends, after the three retries, in that raw failure. *)
Theorem analyzeSyllabus_failures fileBase64 mimeType w :
  (forall response w1,
     generateContent (analysisRequest fileBase64 mimeType) w = (inr response, w1) ->
     truthy (text response) = false ->
     analyzeSyllabus fileBase64 mimeType w
     = (inl (newError "No analysis generated"), w1, [Invoked])) /\
  (forall err w1 tr,
     retryAPI (analysisOperation fileBase64 mimeType) 3 2000 w = (inl err, w1, tr) ->
     analyzeSyllabus fileBase64 mimeType w
     = (inl (if tooManyRequests err then highTraffic else err), w1, tr)) /\
  (remoteAlwaysFailsWith generateContent (fun err => tooManyRequests err = true)
     (analysisRequest fileBase64 mimeType) ->
   exists w',
     analyzeSyllabus fileBase64 mimeType w = (inl highTraffic, w', backoff 3 2000)) /\
  (remoteAlwaysFailsWith generateContent
     (fun err => rateLimited err = true /\ tooManyRequests err = false)
     (analysisRequest fileBase64 mimeType) ->
   exists err w',
     analyzeSyllabus fileBase64 mimeType w = (inl err, w', backoff 3 2000)
     /\ rateLimited err = true /\ tooManyRequests err = false).
Proof.
  unfold Gemini.analyzeSyllabus. split; [|split; [|split]].
  - intros response w1 Hg Htext.
    rewrite retryAPI_unfold. unfold Gemini.analysisOperation at 1.
    by rewrite Hg, Htext.
  - by intros err w1 tr ->.
  - intros H%analysisOperation_fails.
    destruct (retryAPI_backoff _ _ 3 2000 w tooManyRequests_rateLimited H)
      as (err & w' & Hrun & Herr).
    change (Z.of_nat 3) with 3 in Hrun. rewrite Hrun.
    exists w'. unfold analysisCatch. by rewrite Herr.
  - intros H%analysisOperation_fails.
    destruct (retryAPI_backoff _ _ 3 2000 w (fun _ E => proj1 E) H)
      as (err & w' & Hrun & Hrl & Herr).
    change (Z.of_nat 3) with 3 in Hrun. rewrite Hrun.
    exists err, w'. unfold analysisCatch. by rewrite Herr.
Qed.

End Facts.

(** C4 fails as stated: against a remote side that refuses every call,
    [getChapters] rejects with the refusal and returns no sequence. *)
Lemma getChapters_throws :
  (getChapters (Samples.remote Samples.forbidden) Samples.noParse
     Class10 Science ()).1.1
  = inl Samples.forbidden /\
  (getChapters (Samples.remote Samples.forbidden) Samples.noParse
     Class10 Science ()).1.1
  <> inr (JArray []).
Proof. split; [vm_compute; reflexivity | vm_compute; discriminate]. Qed.

Lemma getChapters_outcomes_witness :
  getChapters Samples.silent Samples.noParse Class10 Science ()
  = (inr (JArray []), (), [Invoked]).
Proof.
  apply (proj1 (getChapters_outcomes Samples.silent Samples.noParse
                  Class10 Science ())
           {| text := None |} ()); reflexivity.
Defined.

(** C7 fails as stated: a remote side that answers every call with HTTP 503
    carries the signature of a rate limit and uses up the retries, and
    [analyzeSyllabus] rejects with the raw 503 failure, not with the
    high-traffic one. *)
Lemma analyzeSyllabus_raw_503 :
  rateLimited Samples.unavailable = true /\
  analyzeSyllabus (Samples.remote Samples.unavailable) "JVBERi0=" "application/pdf" ()
  = (inl Samples.unavailable, (), backoff 3 2000) /\
  Samples.unavailable <> highTraffic.
Proof. split; [|split]; [reflexivity | vm_compute; reflexivity | discriminate]. Qed.

Lemma analyzeSyllabus_failures_witness :
  analyzeSyllabus Samples.silent "JVBERi0=" "application/pdf" ()
  = (inl (newError "No analysis generated"), (), [Invoked]).
Proof.
  apply (proj1 (analyzeSyllabus_failures Samples.silent
                  "JVBERi0=" "application/pdf" ())
           {| text := None |} ()); reflexivity.
Defined.

End RemoteFacts.

(** ** [handleSend] *)

Module TutorFacts.
Import Js Tutor StringFacts.

Lemma overwriteLast_snoc fullResponse pre m :
  overwriteLast fullResponse (pre ++ [m])
  = Some (pre ++ [{| role := role m; text := fullResponse |}]).
Proof.
  unfold overwriteLast. rewrite length_app, Nat.add_1_r.
  rewrite lookup_app_r, Nat.sub_diag by lia. cbn [lookup list_lookup].
  rewrite insert_app_r_alt, Nat.sub_diag by lia. reflexivity.
Qed.

Lemma truthy_false_default (c : option string) :
  truthy c = false -> default EmptyString c = EmptyString.
Proof. by destruct c as [[|]|]. Qed.

(** The loop leaves every entry but the last alone, and the last one ends
    with what had been accumulated followed by all the fragments. *)
Lemma consume_snoc chunks fullResponse pre r :
  consume chunks fullResponse (pre ++ [{| role := r; text := fullResponse |}])
  = Some (pre ++ [{| role := r;
                     text := fullResponse +:+ fragmentsText chunks |}]).
Proof.
  revert fullResponse. induction chunks as [|c chunks IH]; intros acc.
  - cbn. by rewrite app_empty_r.
  - cbn [consume fragmentsText foldr]. destruct (truthy c) eqn:Hc.
    + rewrite overwriteLast_snoc. cbn [role].
      rewrite IH. by rewrite app_assoc_s.
    + rewrite IH, (truthy_false_default c Hc). by rewrite app_nil.
Qed.

(** The text of a turn is the override when one is given and is not
    empty, and what stands in the input field otherwise. *)
Lemma textToSend_sent textOverride st sent :
  textOverride = Some sent \/
  ((textOverride = None \/ textOverride = Some EmptyString) /\
   input st = sent) ->
  trimIsEmpty sent = false ->
  textToSend textOverride st = sent.
Proof.
  unfold textToSend. intros [-> | [[-> | ->] <-]] Hsent; [|done..].
  by destruct sent.
Qed.

(** C6. A turn with a text that is not blank (the text handed over with
    the call, or, when none or an empty one is handed over, the text in
    the input field), on a session that exists and whose stream, asked
    with that text, delivers its fragments and ends, appends one User
    message with that text and, after it, one Model message whose text is
    the concatenation of the fragments in the order of receipt; the
    entries of the transcript that were there before are the same as
    before. *)
Theorem handleSend_success textOverride st chat sent chunks :
  chatSessionRef st = Some chat ->
  textOverride = Some sent \/
  ((textOverride = None \/ textOverride = Some EmptyString) /\
   input st = sent) ->
  trimIsEmpty sent = false ->
  chat sent = Streamed chunks None ->
  exists st',
    handleSend textOverride st = Some st' /\
    messages st' =
      messages st ++
      [{| role := user; text := sent |};
       {| role := model; text := fragmentsText chunks |}] /\
    take (List.length (messages st)) (messages st') = messages st.
Proof.
  intros Hchat Hsent Htext Hstream. unfold handleSend.
  rewrite (textToSend_sent _ _ _ Hsent Htext).
  rewrite Htext, Hchat, Hstream.
  rewrite (consume_snoc chunks EmptyString _ model), app_nil.
  eexists. split; [reflexivity|]. cbn [messages].
  rewrite <- app_assoc. split; [reflexivity|].
  by rewrite take_app_length.
Qed.

(** C5, as the code has it.  When a turn fails, a Model message with the
    apology is appended as the last entry.  If the request itself is
    rejected, it follows the User message.  If the stream breaks while the
    fragments are consumed, the Model message in progress stays in the
    transcript, with the fragments received so far, and the apology comes
    after it as an entry of its own. *)
Theorem handleSend_failure textOverride st chat :
  chatSessionRef st = Some chat ->
  trimIsEmpty (textToSend textOverride st) = false ->
  (forall err,
     chat (textToSend textOverride st) = Rejected err ->
     exists st',
       handleSend textOverride st = Some st' /\
       messages st' =
         messages st ++
         [{| role := user; text := textToSend textOverride st |};
          {| role := model; text := apology |}] /\
       last (messages st') = Some {| role := model; text := apology |}) /\
  (forall chunks err,
     chat (textToSend textOverride st) = Streamed chunks (Some err) ->
     exists st',
       handleSend textOverride st = Some st' /\
       messages st' =
         messages st ++
         [{| role := user; text := textToSend textOverride st |};
          {| role := model; text := fragmentsText chunks |};
          {| role := model; text := apology |}] /\
       last (messages st') = Some {| role := model; text := apology |}).
Proof.
  intros Hchat Htext. unfold handleSend. rewrite Htext, Hchat.
  split.
  - intros err ->. eexists. split; [reflexivity|]. cbn [messages].
    split; [by rewrite <- app_assoc | by rewrite last_snoc].
  - intros chunks err ->.
    rewrite (consume_snoc chunks EmptyString _ model), app_nil.
    eexists. split; [reflexivity|]. cbn [messages].
    split; [by rewrite <- !app_assoc | by rewrite last_snoc].
Qed.

(** C5 fails as stated: when the stream breaks after the fragment "Photo",
    the transcript ends with the truncated answer "Photo" and, after it,
    the apology; the answer in progress has not been replaced. *)
Lemma handleSend_keeps_partial_answer :
  (messages <$> handleSend None Samples.greeted) =
    Some (messages Samples.greeted ++
          [{| role := user; text := "What is photosynthesis?" |};
           {| role := model; text := "Photo" |};
           {| role := model; text := apology |}]) /\
  (messages <$> handleSend None Samples.greeted) <>
    Some (messages Samples.greeted ++
          [{| role := user; text := "What is photosynthesis?" |};
           {| role := model; text := apology |}]).
Proof. split; [vm_compute; reflexivity | vm_compute; discriminate]. Qed.

Lemma handleSend_failure_witness :
  exists st',
    handleSend None Samples.greeted = Some st' /\
    messages st' =
      messages Samples.greeted ++
      [{| role := user; text := textToSend None Samples.greeted |};
       {| role := model; text := fragmentsText [Some "Photo"] |};
       {| role := model; text := apology |}] /\
    last (messages st') = Some {| role := model; text := apology |}.
Proof.
  apply (proj2 (handleSend_failure None Samples.greeted Samples.breaking
                  eq_refl eq_refl)
           [Some "Photo"] Samples.unavailable eq_refl).
Defined.

Lemma handleSend_success_witness :
  exists st',
    handleSend None Samples.askingOhm = Some st' /\
    messages st' =
      messages Samples.askingOhm ++
      [{| role := user; text := "Explain Ohm's law" |};
       {| role := model; text := "V = IR: the current grows with the voltage." |}] /\
    take (List.length (messages Samples.askingOhm)) (messages st')
    = messages Samples.askingOhm.
Proof.
  apply (handleSend_success None Samples.askingOhm Samples.answeringOhm
           "Explain Ohm's law"
           [Some "V = IR: "; None; Some "the current grows with the voltage."]).
  - reflexivity.
  - right. split; [by left|reflexivity].
  - reflexivity.
  - reflexivity.
Defined.

End TutorFacts.

(** ** Bookmarks *)

Module BookmarkFacts.
Import Js UserService.


Lemma getBookmarks_set_eq u l all ls :
  getBookmarks u (setBookmarks (<[u := l]> all) ls) = l.
Proof. unfold getBookmarks, allBookmarksOf. simpl. by rewrite lookup_insert_eq. Qed.

Lemma getBookmarks_set_ne u v l ls :
  u <> v ->
  getBookmarks v (setBookmarks (<[u := l]> (allBookmarksOf ls)) ls)
  = getBookmarks v ls.
Proof.
  intros Hne. unfold getBookmarks at 1. unfold allBookmarksOf at 1. simpl.
  by rewrite lookup_insert_ne.
Qed.

Lemma existsb_filter {A} (f : A -> bool) (l : list A) :
  existsb f l = false <-> List.filter f l = [].
Proof.
  induction l as [|x l IH]; simpl; [done|].
  destruct (f x); simpl; [split; discriminate | exact IH].
Qed.


(** What [addBookmark] does once [newBookmark] is built. *)
Lemma addBookmark_Some userId noteData type sectionIndex idTime stampTime ls bm ls' :
  addBookmark userId noteData type sectionIndex idTime stampTime ls
  = Some (bm, ls') ->
  bm_userId bm = userId /\
  sameBookmark noteData type sectionIndex bm = true /\
  if existsb (sameBookmark noteData type sectionIndex) (getBookmarks userId ls)
  then ls' = ls
  else ls' = setBookmarks
               (<[userId := bm :: getBookmarks userId ls]> (allBookmarksOf ls)) ls.
Proof.
  unfold addBookmark. fold (getBookmarks userId ls).
  destruct (match type with
            | topicType => Some (topic noteData)
            | sectionType => heading <$> sectionAt noteData sectionIndex
            end) as [title|]; [|discriminate].
  cbn [mbind option_bind].
  destruct (existsb _ (getBookmarks userId ls)); cbn [negb];
    intros [= <- <-]; (split; [done|split; [|done]]);
    unfold sameBookmark; cbn;
    by rewrite !bool_decide_eq_true_2, String.eqb_refl by done.
Qed.


Lemma addBookmark_again userId noteData type sectionIndex t1 s1 ls bm ls1 :
  addBookmark userId noteData type sectionIndex t1 s1 ls = Some (bm, ls1) ->
  existsb (sameBookmark noteData type sectionIndex) (getBookmarks userId ls1)
  = true.
Proof.
  intros Hadd. destruct (addBookmark_Some _ _ _ _ _ _ _ _ _ Hadd)
    as (_ & Hsame & Hls).
  destruct (existsb _ (getBookmarks userId ls)) eqn:E; subst ls1; [done|].
  rewrite getBookmarks_set_eq. simpl. by rewrite Hsame.
Qed.








(** C10. For a bookmark of type section, [addBookmark] reads the section
    at [sectionIndex] without any check: it returns exactly when the index
    is given and lies within [noteData.sections], and then the title is the
    heading of that section; for a missing, negative or too large index the
    read throws, whatever is stored, and nothing is written. *)
Theorem addBookmark_section_index userId noteData sectionIndex t s ls :
  (is_Some (addBookmark userId noteData sectionType sectionIndex t s ls) <->
   exists i, sectionIndex = Some i /\
             0 <= i < Z.of_nat (List.length (sections noteData))) /\
  (forall bm ls',
     addBookmark userId noteData sectionType sectionIndex t s ls
     = Some (bm, ls') ->
     exists i section,
       sectionIndex = Some i /\
       sections noteData !! Z.to_nat i = Some section /\
       bm_title bm = heading section) /\
  ((forall i, sectionIndex = Some i ->
              i < 0 \/ Z.of_nat (List.length (sections noteData)) <= i) ->
   addBookmark userId noteData sectionType sectionIndex t s ls = None).
Proof.
  unfold addBookmark, sectionAt.
  destruct sectionIndex as [i|]; cbn [fmap option_fmap option_map mbind option_bind].
  2: { split; [|split]; [|done|done].
       split; [by intros [? ?] | by intros (? & ? & _)]. }
  destruct (Z.leb_spec 0 i) as [Hi|Hi].
  - destruct (sections noteData !! Z.to_nat i) as [section|] eqn:E;
      cbn [fmap option_fmap option_map mbind option_bind].
    + apply lookup_lt_Some in E as Hlt. split; [|split].
      * split; [intros _; exists i; split; [done|lia]|].
        intros _. by destruct (negb _).
      * intros bm ls' H. exists i, section. split; [done|]. split; [done|].
        by destruct (negb _); injection H as <- <-.
      * intros H. destruct (H i eq_refl); lia.
    + apply lookup_ge_None in E. split; [|split]; [|done|done].
      split; [by intros [? ?]|]. intros (j & [= <-] & Hj). lia.
  - cbn [fmap option_fmap option_map mbind option_bind].
    split; [|split]; [|done|done].
    split; [by intros [? ?]|]. intros (j & [= <-] & Hj). lia.
Qed.


Lemma addBookmark_section_index_witness :
  addBookmark "guest-000123" Samples.photosynthesis sectionType (Some 2)
    1760000000123 1760000000123 Samples.emptyStorage = None.
Proof.
  apply (proj2 (proj2 (addBookmark_section_index "guest-000123"
                         Samples.photosynthesis (Some 2)
                         1760000000123 1760000000123 Samples.emptyStorage))).
  intros i [= <-]. right. simpl. lia.
Defined.

End BookmarkFacts.

(** ** The guest session *)

Module AuthFacts.
Import Js UserService.

Section Facts.
Variable supabaseUrl : string.
Variable createClient : option SupabaseClient.

#[local] Abbreviation supabase := (supabase supabaseUrl createClient).
#[local] Abbreviation loginUser := (loginUser supabaseUrl createClient).
#[local] Abbreviation logoutUser := (logoutUser supabaseUrl createClient).
#[local] Abbreviation subscribeToAuthChanges :=
  (subscribeToAuthChanges supabaseUrl createClient).
#[local] Abbreviation subscribeAll := (subscribeAll supabaseUrl createClient).

(** With a guest stored, a subscription hands the guest to its callback
    before it returns, and nothing else; the guest stays stored unless the
    callback throws. *)
Lemma subscribe_guest callback w u :
  scholr_guest_session (localStorage w) = Some (Stringified u) ->
  yielded (subscribeToAuthChanges callback w).1 = [Some u] /\
  threw (subscribeToAuthChanges callback w).1 = false /\
  (throwsOn callback (Some u) = false ->
   scholr_guest_session (localStorage (subscribeToAuthChanges callback w).2)
   = Some (Stringified u)).
Proof.
  intros Hg. unfold UserService.subscribeToAuthChanges, guestPresent.
  rewrite Hg. destruct supabase; cbn; (split; [done|split; [done|]]);
    by intros ->.
Qed.

Lemma subscribeAll_guest callbacks w u :
  scholr_guest_session (localStorage w) = Some (Stringified u) ->
  Forall (fun callback => throwsOn callback (Some u) = false) callbacks ->
  Forall (fun r => yielded r = [Some u] /\ threw r = false)
    (subscribeAll callbacks w).1.
Proof.
  intros Hg Hcbs. revert w Hg.
  induction Hcbs as [|callback rest Hcb _ IH]; intros w Hg; cbn; [done|].
  destruct (subscribe_guest callback w u Hg) as (Hy & Ht & Hkeep).
  destruct (subscribeToAuthChanges callback w) as [r w1]. cbn in *.
  specialize (IH w1 (Hkeep Hcb)).
  destruct (subscribeAll rest w1) as [rs w2]. cbn in *.
  by constructor.
Qed.

(** C9, as the code has it.  A guest login makes no call on the remote
    auth collaborator and stores the guest under the guest key.  From then
    on every subscription hands that guest to its callback before it
    returns, whether or not the remote collaborator is configured, as long
    as the callbacks of the subscriptions before it returned normally; the
    first one does so whatever its callback does.
    Logging out removes the guest session; a subscription made after that
    is given [null]: at once when the remote collaborator is not
    configured, and otherwise when the remote side reports that there is no
    session. *)
Theorem guest_session_flow email password now w :
  let result := (loginUser Provider.anonymous email password now w).1 in
  let w1 := (loginUser Provider.anonymous email password now w).2 in
  let w2 := logoutUser w1 in
  result = inr (guestUser now) /\
  remoteCalls w1 = remoteCalls w /\
  scholr_guest_session (localStorage w1) = Some (Stringified (guestUser now)) /\
  (forall callbacks,
     Forall (fun callback => throwsOn callback (Some (guestUser now)) = false)
       callbacks ->
     Forall (fun r => yielded r = [Some (guestUser now)] /\ threw r = false)
       (subscribeAll callbacks w1).1) /\
  (forall callback,
     yielded (subscribeToAuthChanges callback w1).1 = [Some (guestUser now)]) /\
  scholr_guest_session (localStorage w2) = None /\
  (forall callback,
     (supabase = None ->
      yielded (subscribeToAuthChanges callback w2).1 = [None]) /\
     (supabase <> None ->
      yielded (subscribeToAuthChanges callback w2).1 = [] /\
      listening (subscribeToAuthChanges callback w2).1 = true /\
      onAuthStateChange None (subscribeToAuthChanges callback w2).2 = [None])).
Proof.
  cbn zeta. unfold UserService.loginUser. cbn [bool_decide decide_rel fst snd].
  rewrite bool_decide_eq_true_2 by done. cbn [fst snd].
  set (w1 := setGuest _ w).
  assert (scholr_guest_session (localStorage w1)
          = Some (Stringified (guestUser now))) as Hg by done.
  repeat split; try done.
  - intros callbacks. by apply subscribeAll_guest.
  - intros callback. by apply subscribe_guest.
  - unfold UserService.logoutUser. by destruct supabase.
  - intros Hs. unfold UserService.subscribeToAuthChanges, UserService.logoutUser.
    by rewrite Hs.
  - unfold UserService.subscribeToAuthChanges, UserService.logoutUser.
    by destruct supabase.
  - unfold UserService.subscribeToAuthChanges, UserService.logoutUser.
    by destruct supabase.
  - unfold UserService.subscribeToAuthChanges, UserService.logoutUser.
    by destruct supabase.
Qed.

End Facts.

Lemma guest_session_flow_witness :
  Forall (fun r => yielded r = [Some (guestUser 1760000000123)] /\
                   threw r = false)
    (subscribeAll "YOUR_SUPABASE_URL_HERE" None [Samples.quiet; Samples.quiet]
       (loginUser "YOUR_SUPABASE_URL_HERE" None Provider.anonymous None None
          1760000000123 Samples.freshWorld).2).1.
Proof.
  apply (proj1 (proj2 (proj2 (proj2
           (guest_session_flow "YOUR_SUPABASE_URL_HERE" None None None
              1760000000123 Samples.freshWorld))))).
  repeat constructor.
Defined.

(** C9 fails as stated: after a guest login, a subscriber that throws when
    it is handed the guest makes the [catch] block remove the stored
    session, and the subscription after it is given [null], not the
    guest. *)
Lemma guest_lost_after_throwing_subscriber :
  yielded <$>
    (subscribeAll "YOUR_SUPABASE_URL_HERE" None [Samples.failing; Samples.quiet]
       (loginUser "YOUR_SUPABASE_URL_HERE" None Provider.anonymous None None
          1760000000123 Samples.freshWorld).2).1
  = [[Some (guestUser 1760000000123)]; [None]] /\
  [@None User] <> [Some (guestUser 1760000000123)].
Proof. split; [reflexivity | discriminate]. Qed.

End AuthFacts.

(** ** More on [retryAPI], and [generateNotes] *)

Module GeminiMore.
Import Js Gemini StringFacts RetryFacts.

Lemma prefix_spec t s :
  String.prefix t s = true <-> exists b, s = t +:+ b.
Proof.
  revert s. induction t as [|c t IH]; intros s.
  - split; [intros _; by exists s | by destruct s].
  - destruct s as [|d s]; simpl; [split; [done | by intros [b Hb]]|].
    destruct (ascii_dec c d) as [<-|Hne].
    + rewrite IH. split; intros [b Hb]; exists b.
      * rewrite app_cons. by f_equal.
      * rewrite app_cons in Hb. by injection Hb.
    + split; [done|]. intros [b Hb]. rewrite app_cons in Hb. congruence.
Qed.

Lemma includes_nil t : includes EmptyString t = String.prefix t EmptyString.
Proof. unfold includes. by rewrite orb_false_r. Qed.

Lemma includes_cons c s t :
  includes (String c s) t = String.prefix t (String c s) || includes s t.
Proof. reflexivity. Qed.

Lemma includes_spec s t :
  includes s t = true <-> exists a b, s = a +:+ t +:+ b.
Proof.
  split.
  - induction s as [|c s IH]; intros H.
    + rewrite includes_nil in H. apply prefix_spec in H as [b Hb].
      by exists EmptyString, b.
    + rewrite includes_cons in H. apply orb_prop in H as [H|H].
      * apply prefix_spec in H as [b Hb]. by exists EmptyString, b.
      * destruct (IH H) as (a & b & ->). by exists (String c a), b.
  - intros (a & b & ->). induction a as [|c a IH].
    + rewrite app_nil.
      assert (String.prefix t (t +:+ b) = true) as Hp
        by (apply prefix_spec; by exists b).
      destruct (t +:+ b) as [|d r].
      * by rewrite includes_nil.
      * by rewrite includes_cons, Hp.
    + by rewrite app_cons, includes_cons, IH, orb_true_r.
Qed.

Lemma statusIs_spec err n : statusIs err n = true <-> status err = Some n.
Proof.
  unfold statusIs. destruct (status err) as [st|]; [|done].
  rewrite Z.eqb_eq. split; [by intros -> | by intros [= ->]].
Qed.

Lemma messageIncludes_spec err marker :
  messageIncludes err marker = true <->
  exists m a b, message err = Some m /\ m = a +:+ marker +:+ b.
Proof.
  unfold messageIncludes. destruct (message err) as [m|].
  - rewrite includes_spec. split.
    + intros (a & b & ->). by exists (a +:+ marker +:+ b), a, b.
    + intros (m' & a & b & [= <-] & ->). by exists a, b.
  - split; [done | by intros (m' & a & b & [=] & _)].
Qed.

(** X1. The test of [retryAPI] for a failure that may be retried, spelled
    out: the status is 429 or 503, or the message holds one of the three
    markers somewhere inside it. *)
Theorem rateLimited_spec err :
  rateLimited err = true <->
  status err = Some 429 \/ status err = Some 503 \/
  exists m marker a b,
    message err = Some m /\
    marker ∈ ["429"; "RESOURCE_EXHAUSTED"; "quota"] /\
    m = a +:+ marker +:+ b.
Proof.
  unfold rateLimited.
  rewrite !orb_true_iff, !statusIs_spec, !messageIncludes_spec.
  split.
  - intros [[[[H|H]|(m & a & b & Hm & ->)]|(m & a & b & Hm & ->)]
           |(m & a & b & Hm & ->)]; [by left | by right; left | ..];
      right; right; eexists _, _, a, b;
      (split; [exact Hm|split; [|reflexivity]]); set_solver.
  - intros [H|[H|(m & marker & a & b & Hm & Hin & ->)]];
      [by do 4 left | by do 3 left; right |].
    rewrite !elem_of_cons in Hin.
    destruct Hin as [->|[->|[->|Hin]]].
    + left; left; right. by exists (a +:+ "429" +:+ b), a, b.
    + left; right. by exists (a +:+ "RESOURCE_EXHAUSTED" +:+ b), a, b.
    + right. by exists (a +:+ "quota" +:+ b), a, b.
    + by apply elem_of_nil in Hin.
Qed.

Section Facts.
Context {W T : Type}.
Implicit Types (operation : @Operation W T) (w : W).

(** X2. Whatever the operation does, [retryAPI] follows a beginning of the
    backoff schedule and stops after an invocation: it invokes the
    operation at least once and at most [retries + 1] times, sleeps only
    between two invocations, and each sleep is twice the one before,
    starting with [delay]. *)
Theorem retryAPI_schedule operation (retries delay : Z) w :
  exists k : nat,
    Z.of_nat k <= Z.max retries 0 /\
    (retryAPI operation retries delay w).2 = backoff k delay /\
    1 <= invocations (retryAPI operation retries delay w).2
      <= Z.max retries 0 + 1.
Proof.
  assert (exists k : nat,
            Z.of_nat k <= Z.max retries 0 /\
            (retryAPI operation retries delay w).2 = backoff k delay)
    as (k & Hk & Htr).
  { remember (Z.to_nat retries) as n eqn:Hn.
    revert retries delay w Hn.
    induction n as [|n IH]; intros retries delay w Hn;
      rewrite retryAPI_unfold; destruct (operation w) as [[err|v] w1];
      try (exists O; split; [lia|done]).
    - assert ((retries >? 0) = false) as ->
        by (rewrite Z.gtb_ltb; apply Z.ltb_ge; lia).
      exists O. split; [lia|done].
    - destruct ((retries >? 0) && rateLimited err) eqn:E;
        [|exists O; split; [lia|done]].
      destruct (IH (retries - 1) (delay * 2) w1) as (k & Hk & Htr); [lia|].
      destruct (retryAPI operation (retries - 1) (delay * 2) w1)
        as [[r w2] tr]. cbn [snd] in *. subst tr.
      exists (S k). split; [lia|done]. }
  exists k. split; [done|]. split; [done|].
  rewrite Htr, invocations_backoff. lia.
Qed.

(** X3. The first outcome that is not a rate-limit failure decides the
    call.  If the operation is rate limited [k] times in a row, [k] within
    the budget, and its next invocation succeeds or fails for another
    reason, then [retryAPI] returns exactly that outcome, after [k + 1]
    invocations and the first [k] delays of the schedule. *)
Theorem retryAPI_settles operation (retries delay : Z) (k : nat) w wk outcome w' :
  rateLimitedRun operation k w wk ->
  Z.of_nat k <= retries ->
  operation wk = (outcome, w') ->
  (forall err, outcome = inl err -> rateLimited err = false) ->
  retryAPI operation retries delay w = (outcome, w', backoff k delay).
Proof.
  intros Hrun. revert retries delay.
  induction Hrun as [w|k w err w1 wk Hop Herr _ IH];
    intros retries delay Hk Hlast Hterminal; rewrite retryAPI_unfold.
  - rewrite Hlast. destruct outcome as [err|v]; [|done].
    by rewrite (Hterminal err eq_refl), andb_false_r.
  - rewrite Hop, Herr.
    assert ((retries >? 0) = true) as -> by (apply Z.gtb_lt; lia).
    cbn [andb]. by rewrite (IH (retries - 1) (delay * 2)) by (done || lia).
Qed.

End Facts.

Lemma retryAPI_settles_witness :
  retryAPI Samples.recovering 3 2000 O
  = (inr "ready", 3%nat, backoff 2 2000).
Proof.
  apply (retryAPI_settles Samples.recovering 3 2000 2 O 2%nat (inr "ready") 3%nat).
  - eapply run_again; [reflexivity..|].
    eapply run_again; [reflexivity..|]. apply run_done.
  - lia.
  - reflexivity.
  - discriminate.
Defined.

Section NotesFacts.
Context {W : Type}.
Variable generateContentWith :
  GenerateContentParameters -> GenerateContentConfig -> W
  -> (Error + GenerateContentResponse) * W.
Variable JSON_parse : string -> Error + Json.

#[local] Abbreviation generateNotes :=
  (generateNotes generateContentWith JSON_parse).

(** X4. When the remote collaborator answers a request for notes without
    any text, [generateNotes] rejects with "Empty response from AI" after
    that one call: the failure carries no signature of a rate limit and is
    not retried. *)
Theorem generateNotes_empty classLevel subject topic w response w1 :
  generateContentWith (notesRequest classLevel subject topic) notesConfig w
  = (inr response, w1) ->
  truthy (text response) = false ->
  generateNotes classLevel subject topic w
  = (inl (newError "Empty response from AI"), w1, [Invoked]).
Proof.
  intros Hg Htext. unfold Gemini.generateNotes.
  rewrite retryAPI_unfold. unfold notesOperation at 1.
  by rewrite Hg, Htext.
Qed.

(** X5. The text that [generateNotes] hands to [JSON.parse] is the answer
    with its exponents rewritten: no caret followed by a character from
    "0123456789+-" is left in it.  What the parser makes of that text is
    the result: the parsed value, or the parser's failure (thrown on at
    once unless it carries the signature of a rate limit). *)
Theorem generateNotes_parses_rewritten classLevel subject topic w t w1 :
  generateContentWith (notesRequest classLevel subject topic) notesConfig w
  = (inr {| text := Some t |}, w1) ->
  t <> EmptyString ->
  ~ Exponents.occurs (replaceSuperscripts t) /\
  (forall note,
     JSON_parse (replaceSuperscripts t) = inr note ->
     generateNotes classLevel subject topic w = (inr note, w1, [Invoked])) /\
  (forall err,
     JSON_parse (replaceSuperscripts t) = inl err ->
     rateLimited err = false ->
     generateNotes classLevel subject topic w = (inl err, w1, [Invoked])).
Proof.
  intros Hg Ht.
  split; [apply SuperscriptFacts.replaceSuperscripts_no_occurrence|].
  assert (truthy (Some t) = true) as Htruthy by by destruct t.
  unfold Gemini.generateNotes.
  split; intros r Hparse; [|intros Herr];
    rewrite retryAPI_unfold; unfold notesOperation at 1;
    rewrite Hg; cbn [text]; rewrite Htruthy; cbv zeta; cbn [default];
    unfold id; rewrite Hparse; [done|]. by rewrite Herr, andb_false_r.
Qed.

End NotesFacts.

Lemma generateNotes_empty_witness :
  generateNotes (Samples.answeringWith None) Samples.parseEmptyObject
    Class10 Science "Light" ()
  = (inl (newError "Empty response from AI"), (), [Invoked]).
Proof.
  apply (generateNotes_empty (Samples.answeringWith None)
           Samples.parseEmptyObject Class10 Science "Light" ()
           {| text := None |} ()); reflexivity.
Defined.

Lemma generateNotes_parses_rewritten_witness :
  generateNotes (Samples.answeringWith (Some Samples.formulaText))
    Samples.parseFormula Class10 Physics "Energy" ()
  = (inr (JString "E = mc², c = 3 x 10⁸ m s⁻¹"), (), [Invoked]).
Proof.
  apply (proj1 (proj2 (generateNotes_parses_rewritten
                         (Samples.answeringWith (Some Samples.formulaText))
                         Samples.parseFormula Class10 Physics "Energy" ()
                         Samples.formulaText () eq_refl
                         ltac:(discriminate)))).
  vm_compute. reflexivity.
Defined.

Section ChaptersFacts.
Context {W : Type}.
Variable generateContent :
  GenerateContentParameters -> W -> (Error + GenerateContentResponse) * W.
Variable JSON_parse : string -> Error + Json.

#[local] Abbreviation getChapters := (getChapters generateContent JSON_parse).


End ChaptersFacts.


End GeminiMore.

(** ** More on the user service *)

Module UserServiceMore.
Import Js UserService BookmarkFacts.

Section AuthMore.
Variable supabaseUrl : string.
Variable createClient : option SupabaseClient.

#[local] Abbreviation supabase := (supabase supabaseUrl createClient).
#[local] Abbreviation loginUser := (loginUser supabaseUrl createClient).
#[local] Abbreviation logoutUser := (logoutUser supabaseUrl createClient).
#[local] Abbreviation subscribeToAuthChanges :=
  (subscribeToAuthChanges supabaseUrl createClient).

(** X7. Without a usable remote auth collaborator (the URL is still the
    placeholder, or the client could not be created), a Google or email
    login is refused on the spot: it rejects with the CONFIGURATION_ERROR
    failure, having made no remote call and written nothing. *)
Theorem loginUser_unconfigured providerName email password now w :
  supabase = None ->
  providerName <> Provider.anonymous ->
  exists err,
    loginUser providerName email password now w = (inl err, w) /\
    messageIncludes err "CONFIGURATION_ERROR" = true.
Proof.
  intros Hs Hp. unfold UserService.loginUser.
  rewrite bool_decide_eq_false_2 by done.
  unfold UserService.supabase in *.
  destruct (isFirebaseConfigured supabaseUrl); rewrite ?Hs;
    eexists; (split; [reflexivity|]); vm_compute; reflexivity.
Qed.

Lemma loginUser_storage providerName email password now w :
  providerName <> Provider.anonymous ->
  localStorage (loginUser providerName email password now w).2
  = localStorage w.
Proof.
  intros Hp. unfold UserService.loginUser.
  rewrite bool_decide_eq_false_2 by done.
  destruct (if isFirebaseConfigured supabaseUrl then supabase else None)
    as [client|]; [|done].
  destruct providerName; [| |done].
  - destruct (signInWithOAuth client) as [err|url];
      [|destruct (truthy url)]; done.
  - destruct (truthy email && truthy password); [|done].
    by destruct (signInWithPassword client _ _) as [err|[u|]].
Qed.

(** X8. A Google or email login never writes to the local storage, and it
    makes at most one call on the remote collaborator; an email login
    without an email or without a password makes none and rejects. *)
Theorem loginUser_footprint providerName email password now w :
  providerName <> Provider.anonymous ->
  localStorage (loginUser providerName email password now w).2
  = localStorage w /\
  (remoteCalls (loginUser providerName email password now w).2 = remoteCalls w
   \/ exists c,
        remoteCalls (loginUser providerName email password now w).2
        = remoteCalls w ++ [c]) /\
  (providerName = Provider.email ->
   truthy email && truthy password = false ->
   exists err, loginUser providerName email password now w = (inl err, w)).
Proof.
  intros Hp. unfold UserService.loginUser.
  rewrite bool_decide_eq_false_2 by done.
  destruct (if isFirebaseConfigured supabaseUrl then supabase else None)
    as [client|]; [|split; [done|split; [by left | by eexists]]].
  destruct providerName; [| |done].
  - destruct (signInWithOAuth client) as [err|url];
      [|destruct (truthy url)]; (split; [done|split; [right; by eexists|done]]).
  - destruct (truthy email && truthy password) eqn:E.
    + destruct (signInWithPassword client _ _) as [err|[u|]];
        (split; [done|split; [right; by eexists|done]]).
    + split; [done|split; [by left | by eexists]].
Qed.

(** X9. A Google login never resolves with an authenticated user: when it
    resolves, one remote call was made and the user is the placeholder with
    id "pending", left for the redirect to replace. *)
Theorem loginUser_google_pending email password now w u w' :
  loginUser Provider.google email password now w = (inr u, w') ->
  id u = "pending" /\ UserService.email u = EmptyString /\
  provider u = Provider.google /\
  w' = call CallSignInWithOAuth w.
Proof.
  unfold UserService.loginUser. rewrite bool_decide_eq_false_2 by done.
  destruct (if isFirebaseConfigured supabaseUrl then supabase else None)
    as [client|]; [|done].
  destruct (signInWithOAuth client) as [err|url]; [done|].
  destruct (truthy url); [|done]. by intros [= <- <-].
Qed.

(** X10. While a guest session is stored, what the remote collaborator
    reports about its own session never reaches the callback; once the
    guest has logged out, it does: a session is handed on as a user whose
    provider is email exactly when the remote side says so, and no session
    as [null]. *)
Theorem guest_suppresses_remote email password now w session :
  let w1 := (loginUser Provider.anonymous email password now w).2 in
  onAuthStateChange session w1 = [] /\
  onAuthStateChange None (logoutUser w1) = [None] /\
  forall u,
    exists user,
      onAuthStateChange (Some u) (logoutUser w1) = [Some user] /\
      id user = sb_id u /\
      (provider user = Provider.email <-> app_provider u = Some "email").
Proof.
  cbn zeta. unfold UserService.loginUser. rewrite bool_decide_eq_true_2 by done.
  cbn [snd]. split; [done|].
  assert (guestPresent (logoutUser (setGuest (Some (Stringified (guestUser now))) w))
          = false) as Hgone
    by (unfold UserService.logoutUser; by destruct supabase).
  unfold onAuthStateChange. rewrite Hgone. split; [done|].
  intros u. eexists. split; [reflexivity|]. split; [done|].
  cbn [provider mapUser]. case_bool_decide; split; done.
Qed.

(** X11. A guest entry that does not parse is removed by the next
    subscription, and that subscription hands its callback nothing at all,
    not even [null]; without a remote collaborator it is the subscription
    after it that is given [null]. *)
Theorem subscribe_damaged_guest callback w raw :
  scholr_guest_session (localStorage w) = Some (Unparseable raw) ->
  raw <> EmptyString ->
  yielded (subscribeToAuthChanges callback w).1 = [] /\
  threw (subscribeToAuthChanges callback w).1 = false /\
  scholr_guest_session
    (localStorage (subscribeToAuthChanges callback w).2) = None /\
  (supabase = None ->
   forall callback',
     yielded (subscribeToAuthChanges callback'
                (subscribeToAuthChanges callback w).2).1 = [None]).
Proof.
  intros Hg Hraw.
  assert (guestPresent w = true) as Hp
    by (unfold guestPresent; rewrite Hg; by destruct raw).
  unfold UserService.subscribeToAuthChanges at 1 2 3 5.
  rewrite Hg, Hp. destruct supabase eqn:Hs; cbn.
  - repeat split; done.
  - repeat split; try done. intros _ callback'.
    unfold UserService.subscribeToAuthChanges. by rewrite Hs.
Qed.

(** X12. A subscriber that throws when it is handed the guest costs the
    guest their session: the subscription itself returns normally, the
    stored session is removed, and without a remote collaborator the next
    subscriber is given [null]. *)
Theorem subscribe_throwing_drops_guest callback w u :
  scholr_guest_session (localStorage w) = Some (Stringified u) ->
  throwsOn callback (Some u) = true ->
  yielded (subscribeToAuthChanges callback w).1 = [Some u] /\
  threw (subscribeToAuthChanges callback w).1 = false /\
  scholr_guest_session
    (localStorage (subscribeToAuthChanges callback w).2) = None /\
  (supabase = None ->
   forall callback',
     yielded (subscribeToAuthChanges callback'
                (subscribeToAuthChanges callback w).2).1 = [None]).
Proof.
  intros Hg Hthrow.
  assert (guestPresent w = true) as Hp
    by (unfold guestPresent; by rewrite Hg).
  unfold UserService.subscribeToAuthChanges at 1 2 3 5.
  rewrite Hg, Hp, Hthrow. destruct supabase eqn:Hs; cbn.
  - repeat split; done.
  - repeat split; try done. intros _ callback'.
    unfold UserService.subscribeToAuthChanges. by rewrite Hs.
Qed.

(** X13. The two halves of the storage do not touch each other: logging
    in, logging out and subscribing leave every user's bookmarks as they
    are, and adding or removing a bookmark leaves the guest session as it
    is. *)
Theorem storage_separation userId w :
  (forall providerName email password now,
     getBookmarks userId
       (localStorage (loginUser providerName email password now w).2)
     = getBookmarks userId (localStorage w)) /\
  getBookmarks userId (localStorage (logoutUser w))
  = getBookmarks userId (localStorage w) /\
  (forall callback,
     getBookmarks userId
       (localStorage (subscribeToAuthChanges callback w).2)
     = getBookmarks userId (localStorage w)) /\
  (forall owner noteData type sectionIndex idTime stampTime bm ls',
     addBookmark owner noteData type sectionIndex idTime stampTime
       (localStorage w) = Some (bm, ls') ->
     scholr_guest_session ls' = scholr_guest_session (localStorage w)) /\
  (forall owner bookmarkId,
     scholr_guest_session (removeBookmark owner bookmarkId (localStorage w))
     = scholr_guest_session (localStorage w)).
Proof.
  repeat split.
  - intros providerName email password now.
    destruct (decide (providerName = Provider.anonymous)) as [->|Hp].
    + unfold UserService.loginUser. by rewrite bool_decide_eq_true_2.
    + by rewrite loginUser_storage.
  - unfold UserService.logoutUser. by destruct supabase.
  - intros callback. unfold UserService.subscribeToAuthChanges.
    destruct (scholr_guest_session (localStorage w)) as [[u|raw]|];
      destruct supabase; cbn;
      repeat (match goal with |- context [if ?b then _ else _] => destruct b end);
      done.
  - intros owner noteData type sectionIndex idTime stampTime bm ls' Hadd.
    apply addBookmark_Some in Hadd as (_ & _ & Hls).
    destruct (existsb _ _); by subst ls'.
  - intros owner bookmarkId. unfold removeBookmark.
    by destruct (allBookmarksOf (localStorage w) !! owner).
Qed.

End AuthMore.

Lemma loginUser_unconfigured_witness :
  exists err,
    loginUser "YOUR_SUPABASE_URL_HERE" None Provider.google None None
      1760000000123 Samples.freshWorld = (inl err, Samples.freshWorld) /\
    messageIncludes err "CONFIGURATION_ERROR" = true.
Proof.
  apply (loginUser_unconfigured "YOUR_SUPABASE_URL_HERE" None Provider.google
           None None 1760000000123 Samples.freshWorld);
    [reflexivity | discriminate].
Defined.

Lemma loginUser_footprint_witness :
  localStorage
    (loginUser "https://scholr.supabase.co" (Some Samples.oauthClient)
       Provider.email (Some "asha@example.org") None 1760000000123
       Samples.freshWorld).2
  = localStorage Samples.freshWorld.
Proof.
  apply (proj1 (loginUser_footprint "https://scholr.supabase.co"
                  (Some Samples.oauthClient) Provider.email
                  (Some "asha@example.org") None 1760000000123
                  Samples.freshWorld ltac:(discriminate))).
Defined.

Lemma loginUser_google_pending_witness :
  match loginUser "https://scholr.supabase.co" (Some Samples.oauthClient)
          Provider.google None None 1760000000123 Samples.freshWorld with
  | (inr u, w') =>
      id u = "pending" /\ UserService.email u = EmptyString /\
      provider u = Provider.google /\
      w' = call CallSignInWithOAuth Samples.freshWorld
  | (inl _, _) => False
  end.
Proof.
  destruct (loginUser "https://scholr.supabase.co" (Some Samples.oauthClient)
              Provider.google None None 1760000000123 Samples.freshWorld)
    as [[err|u] w'] eqn:E.
  - vm_compute in E. discriminate E.
  - exact (loginUser_google_pending _ _ _ _ _ _ _ _ E).
Defined.

Lemma subscribe_damaged_guest_witness :
  yielded (subscribeToAuthChanges "YOUR_SUPABASE_URL_HERE" None
             Samples.quiet Samples.damagedWorld).1 = [] /\
  threw (subscribeToAuthChanges "YOUR_SUPABASE_URL_HERE" None
           Samples.quiet Samples.damagedWorld).1 = false /\
  scholr_guest_session
    (localStorage (subscribeToAuthChanges "YOUR_SUPABASE_URL_HERE" None
                     Samples.quiet Samples.damagedWorld).2) = None.
Proof.
  destruct (subscribe_damaged_guest "YOUR_SUPABASE_URL_HERE" None
              Samples.quiet Samples.damagedWorld "{id:" eq_refl
              ltac:(discriminate)) as (H1 & H2 & H3 & _).
  exact (conj H1 (conj H2 H3)).
Defined.

Lemma subscribe_throwing_drops_guest_witness :
  scholr_guest_session
    (localStorage
       (subscribeToAuthChanges "YOUR_SUPABASE_URL_HERE" None Samples.failing
          (loginUser "YOUR_SUPABASE_URL_HERE" None Provider.anonymous
             None None 1760000000123 Samples.freshWorld).2).2) = None.
Proof.
  apply (subscribe_throwing_drops_guest "YOUR_SUPABASE_URL_HERE" None
           Samples.failing
           (loginUser "YOUR_SUPABASE_URL_HERE" None Provider.anonymous
              None None 1760000000123 Samples.freshWorld).2
           (guestUser 1760000000123) eq_refl eq_refl).
Defined.


(** X15. Once [addBookmark] has returned, [isBookmarked] answers yes for
    the note's topic and the section index, whatever was stored before; and
    if the triple was not stored yet, the new bookmark is the first entry
    of the user's list, in front of the older ones. *)
Theorem addBookmark_then_isBookmarked
  userId noteData type sectionIndex idTime stampTime ls bm ls' :
  addBookmark userId noteData type sectionIndex idTime stampTime ls
  = Some (bm, ls') ->
  isBookmarked userId (topic noteData) sectionIndex ls' = true /\
  (stored userId noteData type sectionIndex ls = 0%nat ->
   getBookmarks userId ls' = bm :: getBookmarks userId ls).
Proof.
  intros Hadd.
  pose proof (addBookmark_again _ _ _ _ _ _ _ _ _ Hadd) as Hex.
  split.
  - unfold isBookmarked. apply existsb_exists.
    apply existsb_exists in Hex as (b & Hb & Hsame). exists b. split; [done|].
    unfold sameBookmark in Hsame.
    apply andb_prop in Hsame as [[_ Ht]%andb_prop Hi]. by rewrite Ht, Hi.
  - intros Hfresh. unfold stored in Hfresh.
    apply length_zero_iff_nil, existsb_filter in Hfresh.
    apply addBookmark_Some in Hadd as (_ & _ & Hls). rewrite Hfresh in Hls.
    subst ls'. apply getBookmarks_set_eq.
Qed.

Lemma getBookmarks_remove userId bookmarkId ls :
  getBookmarks userId (removeBookmark userId bookmarkId ls)
  = List.filter (fun b => negb (String.eqb (bm_id b) bookmarkId))
      (getBookmarks userId ls).
Proof.
  unfold removeBookmark.
  destruct (allBookmarksOf ls !! userId) as [l|] eqn:E.
  - rewrite getBookmarks_set_eq. unfold getBookmarks. by rewrite E.
  - unfold getBookmarks. by rewrite E.
Qed.

Lemma getBookmarks_remove_other owner userId bookmarkId ls :
  owner <> userId ->
  getBookmarks userId (removeBookmark owner bookmarkId ls)
  = getBookmarks userId ls.
Proof.
  intros Hne. unfold removeBookmark.
  destruct (allBookmarksOf ls !! owner); [|done].
  by apply getBookmarks_set_ne.
Qed.

(** X16. After [removeBookmark], the user's list holds no entry with that
    id; every other entry is still there, in the order it had; the lists
    of the other users are the same; and removing the same id again changes
    nothing. *)
Theorem removeBookmark_effect userId bookmarkId ls :
  (forall b, b ∈ getBookmarks userId (removeBookmark userId bookmarkId ls) ->
             bm_id b <> bookmarkId) /\
  (forall b, b ∈ getBookmarks userId ls -> bm_id b <> bookmarkId ->
             b ∈ getBookmarks userId (removeBookmark userId bookmarkId ls)) /\
  sublist (getBookmarks userId (removeBookmark userId bookmarkId ls))
    (getBookmarks userId ls) /\
  (forall other, other <> userId ->
     getBookmarks other (removeBookmark userId bookmarkId ls)
     = getBookmarks other ls) /\
  getBookmarks userId
    (removeBookmark userId bookmarkId (removeBookmark userId bookmarkId ls))
  = getBookmarks userId (removeBookmark userId bookmarkId ls).
Proof.
  rewrite !getBookmarks_remove. repeat split.
  - intros b Hb. apply list_elem_of_In, filter_In in Hb as [_ Hb].
    by apply negb_true_iff, String.eqb_neq in Hb.
  - intros b Hb Hne. apply list_elem_of_In, filter_In.
    split; [by apply list_elem_of_In|].
    by apply negb_true_iff, String.eqb_neq.
  - induction (getBookmarks userId ls) as [|b l IH]; simpl; [done|].
    destruct (negb _); by constructor.
  - intros other Hne. by apply getBookmarks_remove_other.
  - induction (getBookmarks userId ls) as [|b l IH]; simpl; [done|].
    destruct (negb (String.eqb (bm_id b) bookmarkId)) eqn:E; simpl;
      rewrite ?E; by rewrite IH.
Qed.

Lemma addBookmark_id userId noteData type sectionIndex idTime stampTime ls bm ls' :
  addBookmark userId noteData type sectionIndex idTime stampTime ls
  = Some (bm, ls') ->
  bm_id bm = "bm_" +:+ toString idTime.
Proof.
  unfold addBookmark.
  destruct (match type with
            | topicType => Some (topic noteData)
            | sectionType => heading <$> sectionAt noteData sectionIndex
            end) as [title|]; [|discriminate].
  cbn [mbind option_bind].
  by destruct (existsb _ _); cbn [negb]; intros [= <- <-].
Qed.

(** X17. The id of a bookmark is the time at which it was added, so two
    bookmarks that one user adds within the same millisecond share their
    id, and removing either by its id removes both. *)
Theorem same_millisecond_bookmarks
  userId note1 type1 index1 note2 type2 index2 idTime s1 s2 ls bm1 ls1 bm2 ls2 :
  addBookmark userId note1 type1 index1 idTime s1 ls = Some (bm1, ls1) ->
  addBookmark userId note2 type2 index2 idTime s2 ls1 = Some (bm2, ls2) ->
  bm_id bm1 = bm_id bm2 /\
  (bm1 ∉ getBookmarks userId (removeBookmark userId (bm_id bm2) ls2)) /\
  (bm2 ∉ getBookmarks userId (removeBookmark userId (bm_id bm1) ls2)).
Proof.
  intros H1%addBookmark_id H2%addBookmark_id.
  split; [congruence|].
  rewrite !getBookmarks_remove.
  split; intros Hin; apply list_elem_of_In, filter_In in Hin as [_ Hin];
    apply negb_true_iff, String.eqb_neq in Hin; congruence.
Qed.

(** X18. Every bookmark in a storage that only [addBookmark] and
    [removeBookmark] have written is well formed: it is stored under its
    own user id, its id is "bm_" followed by a timestamp, the title of a
    topic bookmark is the topic, and a section bookmark carries an index
    that lies within the sections of its note, its title being the heading
    of that section. *)
Theorem reachable_wellFormed ls :
  reachable ls ->
  forall userId b, b ∈ getBookmarks userId ls -> wellFormed userId b.
Proof.
  induction 1 as [ls Hnone | ls u n ty i t s bm ls' _ IH Hadd | ls u bid _ IH];
    intros userId b Hb.
  - unfold getBookmarks, allBookmarksOf in Hb. rewrite Hnone in Hb.
    simpl in Hb. rewrite lookup_empty in Hb. by apply elem_of_nil in Hb.
  - assert (wellFormed u bm) as Hbm.
    { unfold addBookmark, sectionAt in Hadd. unfold wellFormed.
      destruct ty.
      - cbn in Hadd. destruct (negb _); injection Hadd as <- _;
          (split; [done|split; [by eexists|done]]).
      - destruct i as [i|]; [|done].
        destruct (Z.leb_spec 0 i) as [Hi|Hi]; [|done].
        destruct (sections n !! Z.to_nat i) as [section|] eqn:E; [|done].
        cbn in Hadd. destruct (negb _); injection Hadd as <- _;
          (split; [done|split; [by eexists|]]); cbn; by exists i, section. }
    apply addBookmark_Some in Hadd as (_ & _ & Hls).
    destruct (existsb _ (getBookmarks u ls)); subst ls'; [by apply IH|].
    destruct (decide (u = userId)) as [<-|Hne].
    + rewrite getBookmarks_set_eq in Hb.
      apply elem_of_cons in Hb as [->|Hb]; [done | by apply IH].
    + rewrite getBookmarks_set_ne in Hb by done. by apply IH.
  - destruct (decide (u = userId)) as [<-|Hne].
    + rewrite getBookmarks_remove in Hb.
      apply list_elem_of_In, filter_In in Hb as [Hb _].
      by apply IH, list_elem_of_In.
    + rewrite getBookmarks_remove_other in Hb by done. by apply IH.
Qed.

Lemma addBookmark_then_isBookmarked_witness :
  isBookmarked "guest-000123" "Photosynthesis" None Samples.afterFirstAdd
  = true.
Proof.
  destruct (addBookmark "guest-000123" Samples.photosynthesis topicType None
              1760000000123 1760000000123 Samples.emptyStorage)
    as [[bm ls']|] eqn:E; [|discriminate E].
  assert (ls' = Samples.afterFirstAdd) as <-
    by (unfold Samples.afterFirstAdd; by rewrite E).
  exact (proj1 (addBookmark_then_isBookmarked _ _ _ _ _ _ _ _ _ E)).
Defined.

Lemma same_millisecond_bookmarks_witness :
  exists bm1 bm2 ls2,
    addBookmark "guest-000123" Samples.respiration topicType None
      1760000000123 1760000000124 Samples.afterFirstAdd = Some (bm2, ls2) /\
    bm_id bm1 = bm_id bm2 /\
    (bm1 ∉ getBookmarks "guest-000123"
             (removeBookmark "guest-000123" (bm_id bm2) ls2)).
Proof.
  destruct (addBookmark "guest-000123" Samples.photosynthesis topicType None
              1760000000123 1760000000123 Samples.emptyStorage)
    as [[bm1 ls1]|] eqn:E1; [|discriminate E1].
  assert (ls1 = Samples.afterFirstAdd) as Hls
    by (unfold Samples.afterFirstAdd; by rewrite E1).
  destruct (addBookmark "guest-000123" Samples.respiration topicType None
              1760000000123 1760000000124 Samples.afterFirstAdd)
    as [[bm2 ls2]|] eqn:E2; [|discriminate E2].
  exists bm1, bm2, ls2. split; [reflexivity|].
  rewrite <- Hls in E2.
  destruct (same_millisecond_bookmarks _ _ _ _ _ _ _ _ _ _ _ _ _ _ _ E1 E2)
    as (H1 & H2 & _).
  exact (conj H1 H2).
Defined.

Lemma reachable_wellFormed_witness :
  Forall (wellFormed "guest-000123")
    (getBookmarks "guest-000123" Samples.afterFirstAdd).
Proof.
  apply Forall_forall.
  apply (reachable_wellFormed Samples.afterFirstAdd).
  destruct (addBookmark "guest-000123" Samples.photosynthesis topicType None
              1760000000123 1760000000123 Samples.emptyStorage)
    as [[bm ls']|] eqn:E; [|discriminate E].
  assert (ls' = Samples.afterFirstAdd) as <-
    by (unfold Samples.afterFirstAdd; by rewrite E).
  eapply reachable_add; [|exact E]. by apply reachable_start.
Defined.

End UserServiceMore.

(** ** The screens: tutor, library, navigation, syllabus, music *)

Module ScreenFacts.
Import Js.

(** X19. A turn of the tutor only ever appends to the transcript, and it
    never fails in a state update: whatever the text, the session and the
    stream, [handleSend] returns a state whose transcript is the old one
    followed by at most three new messages, on the same session; with a
    blank text or without a session it returns the state it was given. *)
Theorem handleSend_appends textOverride (st : Tutor.State) :
  (Tutor.trimIsEmpty (Tutor.textToSend textOverride st) = true \/
   Tutor.chatSessionRef st = None ->
   Tutor.handleSend textOverride st = Some st) /\
  exists st' added,
    Tutor.handleSend textOverride st = Some st' /\
    Tutor.messages st' = Tutor.messages st ++ added /\
    (List.length added <= 3)%nat /\
    Tutor.chatSessionRef st' = Tutor.chatSessionRef st.
Proof.
  unfold Tutor.handleSend.
  destruct (Tutor.trimIsEmpty (Tutor.textToSend textOverride st)) eqn:Hblank.
  { split; [done|]. exists st, []. rewrite app_nil_r.
    split; [done|]. split; [done|]. split; [cbn; lia|done]. }
  destruct (Tutor.chatSessionRef st) as [chat|] eqn:Hchat.
  2: { split; [done|]. exists st, []. rewrite app_nil_r, Hchat.
       split; [done|]. split; [done|]. split; [cbn; lia|done]. }
  split; [by intros [|]|].
  destruct (chat (Tutor.textToSend textOverride st)) as [err|chunks failure].
  - eexists _, _. split; [reflexivity|]. cbn [Tutor.messages Tutor.chatSessionRef].
    rewrite <- app_assoc. split; [reflexivity|]. split; [cbn; lia|done].
  - rewrite (TutorFacts.consume_snoc chunks EmptyString _ Tutor.model).
    destruct failure as [err|]; eexists _, _; (split; [reflexivity|]);
      cbn [Tutor.messages Tutor.chatSessionRef]; rewrite <- !app_assoc;
      (split; [reflexivity|]); (split; [cbn; lia|done]).
Qed.

(** X20. The list on the library screen stays the list in the storage: if
    it shows a user's stored bookmarks, then after [handleDelete] it shows
    the bookmarks stored for that user then, and none of them has the
    deleted id. *)
Theorem handleDelete_in_step user bookmarkId bookmarks ls :
  bookmarks = BookmarksView.load user ls ->
  let '(bookmarks', ls') :=
    BookmarksView.handleDelete user bookmarkId bookmarks ls in
  bookmarks' = BookmarksView.load user ls' /\
  forall b, b ∈ bookmarks' -> UserService.bm_id b <> bookmarkId.
Proof.
  intros ->. unfold BookmarksView.handleDelete, BookmarksView.load.
  rewrite UserServiceMore.getBookmarks_remove. split; [done|].
  intros b Hb. apply list_elem_of_In, filter_In in Hb as [_ Hb].
  by apply negb_true_iff, String.eqb_neq in Hb.
Qed.

Lemma handleDelete_in_step_witness :
  let '(bookmarks', ls') :=
    BookmarksView.handleDelete (UserService.guestUser 1760000000123)
      "bm_1760000000123"
      (BookmarksView.load (UserService.guestUser 1760000000123)
         Samples.afterFirstAdd)
      Samples.afterFirstAdd in
  bookmarks' = BookmarksView.load (UserService.guestUser 1760000000123) ls' /\
  forall b, b ∈ bookmarks' -> UserService.bm_id b <> "bm_1760000000123".
Proof.
  apply (handleDelete_in_step (UserService.guestUser 1760000000123)
           "bm_1760000000123" _ Samples.afterFirstAdd eq_refl).
Defined.

(** X21. Asking the tutor from a note and coming back returns to the note:
    the view is the notes view again, with the same note and the same
    selections, and the question handed to the tutor has been cleared.  But
    the way back is remembered one step deep only: a note opened from the
    library goes back to the library, and after a visit to the tutor the
    same note goes back to the topic screen. *)
Theorem tutor_round_trip text (vs : App.ViewState) :
  let back := App.tutorOnBack (App.onAskTutor text vs) in
  App.tutorInitialQuery (App.onAskTutor text vs) = Some text /\
  App.currentView back = App.notes /\
  App.notesData back = App.notesData vs /\
  App.selectedClass back = App.selectedClass vs /\
  App.selectedSubject back = App.selectedSubject vs /\
  App.selectedTopic back = App.selectedTopic vs /\
  App.tutorInitialQuery back = None /\
  App.currentView (App.notesOnBack back) = App.topic_select /\
  (App.previousView vs = Some App.bookmarks ->
   App.currentView (App.notesOnBack vs) = App.bookmarks).
Proof.
  repeat split. intros Hprev. unfold App.notesOnBack. by rewrite Hprev.
Qed.

Lemma tutor_round_trip_witness :
  App.currentView (App.notesOnBack Samples.readingBookmark) = App.bookmarks.
Proof.
  apply (tutor_round_trip "What is chlorophyll?" Samples.readingBookmark).
  reflexivity.
Defined.

Section NavigationFacts.
Context {W : Type}.
Variable generateContent :
  Gemini.GenerateContentParameters -> W
  -> (Error + Gemini.GenerateContentResponse) * W.
Variable JSON_parse : string -> Error + Gemini.Json.
Variable generateNotes :
  Gemini.ClassLevel -> Gemini.Subject -> string -> W
  -> (Error + UserService.StudyNote) * W * list Gemini.event.

#[local] Abbreviation handleSubjectSelect :=
  (App.handleSubjectSelect generateContent JSON_parse).
#[local] Abbreviation getChapters :=
  (Gemini.getChapters generateContent JSON_parse).
#[local] Abbreviation generateNotesForTopic :=
  (App.generateNotesForTopic generateNotes).

(** X22. [generateNotesForTopic] enters the notes view only with a note in
    hand.  Without a selected class or subject it does nothing and asks for
    nothing.  When [generateNotes] fails, the view state is the one it was,
    with the message to try again beside it.  When it succeeds, the view is
    the notes view with that note and topic, reached from the topic screen,
    with no section to scroll to.  In both cases the loading flag is
    cleared. *)
Theorem generateNotesForTopic_outcomes topicName (app : App.AppState) w :
  (App.selectedClass (App.viewState app) = None \/
   App.selectedSubject (App.viewState app) = None ->
   generateNotesForTopic topicName app w = (app, w, [])) /\
  (forall classLevel subject,
     App.selectedClass (App.viewState app) = Some classLevel ->
     App.selectedSubject (App.viewState app) = Some subject ->
     let app' := (generateNotesForTopic topicName app w).1.1 in
     App.loading app' = false /\
     (forall err w1 tr,
        generateNotes classLevel subject topicName w = (inl err, w1, tr) ->
        App.viewState app' = App.viewState app /\
        App.errorState app' =
          Some "Failed to generate notes. Please try a different topic or check your connection.") /\
     (forall note w1 tr,
        generateNotes classLevel subject topicName w = (inr note, w1, tr) ->
        App.currentView (App.viewState app') = App.notes /\
        App.previousView (App.viewState app') = Some App.topic_select /\
        App.notesData (App.viewState app') = Some note /\
        App.selectedTopic (App.viewState app') = Some topicName /\
        App.selectedClass (App.viewState app') = Some classLevel /\
        App.selectedSubject (App.viewState app') = Some subject /\
        App.targetSectionIndex (App.viewState app') = None /\
        App.errorState app' = None)).
Proof.
  unfold App.generateNotesForTopic. split.
  - intros [-> | ->]; [done|]. by destruct (App.selectedClass _).
  - intros classLevel subject -> ->. cbn zeta.
    destruct (generateNotes classLevel subject topicName w)
      as [[[err|note] w1] tr]; cbn.
    + split; [done|]. split; [done | by intros ? ? ? [=]].
    + split; [done|]. split; [by intros ? ? ? [=]|].
      by intros ? ? ? [= <- <- <-].
Qed.

(** X23. [handleSubjectSelect] never rejects and never leaves the chapter
    list loading.  Without a selected class it does nothing and asks for
    nothing.  With one, it ends on the topic screen of that class and the
    chosen subject with the loading flag cleared, whatever [getChapters]
    did, having made exactly the calls of [getChapters]; and when
    [getChapters] resolved, its chapters are the ones shown. *)
Theorem handleSubjectSelect_outcomes subject (vs : App.ViewState) w :
  (App.selectedClass vs = None ->
   handleSubjectSelect subject vs w = (vs, w, [])) /\
  (forall classLevel,
     App.selectedClass vs = Some classLevel ->
     let vs' := (handleSubjectSelect subject vs w).1.1 in
     App.currentView vs' = App.topic_select /\
     App.previousView vs' = Some App.subject_select /\
     App.selectedClass vs' = Some classLevel /\
     App.selectedSubject vs' = Some subject /\
     App.isLoadingChapters vs' = Some false /\
     (handleSubjectSelect subject vs w).1.2
     = (getChapters classLevel subject w).1.2 /\
     (handleSubjectSelect subject vs w).2
     = (getChapters classLevel subject w).2 /\
     (forall chapters,
        (getChapters classLevel subject w).1.1 = inr chapters ->
        App.availableChapters vs' = Some chapters /\
        App.error vs' = App.error vs)).
Proof.
  unfold App.handleSubjectSelect. split; [by intros ->|].
  intros classLevel ->. cbn zeta.
  destruct (getChapters classLevel subject w) as [[[err|chapters] w1] tr];
    cbn; (do 7 (split; [done|])); by intros ? [= <-].
Qed.

(** X24. A subject is only ever selected together with a class: every
    transition of the view state modelled here keeps that, from the three
    entries of the landing screen through class and subject selection,
    notes, tutor, library and the way home. *)
Theorem subjectHasClass_kept :
  App.subjectHasClass App.handleStartClassSelection /\
  App.subjectHasClass App.handleStartAITutor /\
  App.subjectHasClass App.handleStartSyllabus /\
  App.subjectHasClass App.bookmarksOnBack /\
  (forall vs, App.subjectHasClass (App.onBookmarksClick vs)) /\
  (forall app, App.subjectHasClass (App.viewState (App.resetHome app))) /\
  (forall classLevel vs, App.subjectHasClass (App.handleClassSelect classLevel vs)) /\
  (forall vs,
     App.subjectHasClass vs ->
     App.subjectHasClass (App.subjectOnBack vs) /\
     App.subjectHasClass (App.topicOnBack vs) /\
     App.subjectHasClass (App.notesOnBack vs) /\
     App.subjectHasClass (App.tutorOnBack vs) /\
     App.subjectHasClass (App.syllabusOnBack vs) /\
     (forall text, App.subjectHasClass (App.onAskTutor text vs)) /\
     (forall subject w,
        App.subjectHasClass (handleSubjectSelect subject vs w).1.1)) /\
  (forall topicName app w,
     App.subjectHasClass (App.viewState app) ->
     App.subjectHasClass
       (App.viewState (generateNotesForTopic topicName app w).1.1)).
Proof.
  unfold App.subjectHasClass.
  do 4 (split; [done|]).
  split; [by intros vs|]. split; [by intros app|].
  split; [by intros classLevel vs|].
  split.
  - intros vs Hvs. do 5 (split; [exact Hvs|]).
    split; [intros text; exact Hvs|].
    intros subject w. unfold App.handleSubjectSelect.
    destruct (App.selectedClass vs) as [c|] eqn:Hc.
    + by destruct (Gemini.getChapters _ _ _ _ _) as [[[err|chapters] w1] tr].
    + cbn. by rewrite Hc.
  - intros topicName app w Hvs. unfold App.generateNotesForTopic.
    destruct (App.selectedClass (App.viewState app)) as [c|] eqn:Hc;
      [|cbn; by rewrite Hc].
    destruct (App.selectedSubject (App.viewState app)) as [sub|] eqn:Hs;
      [|cbn; by rewrite Hc].
    destruct (generateNotes c sub topicName w) as [[[err|note] w1] tr]; cbn;
      [by rewrite Hc | done].
Qed.

End NavigationFacts.

Lemma generateNotesForTopic_outcomes_witness :
  App.viewState
    (App.generateNotesForTopic Samples.notesUnavailable "Light"
       Samples.choosingTopic ()).1.1
  = App.viewState Samples.choosingTopic /\
  App.errorState
    (App.generateNotesForTopic Samples.notesUnavailable "Light"
       Samples.choosingTopic ()).1.1
  = Some "Failed to generate notes. Please try a different topic or check your connection.".
Proof.
  apply (proj1 (proj2 (proj2 (generateNotesForTopic_outcomes
                  Samples.notesUnavailable "Light" Samples.choosingTopic ())
                  Gemini.Class10 Gemini.Science eq_refl eq_refl))
           Samples.forbidden () [Gemini.Invoked] eq_refl).
Defined.

Lemma handleSubjectSelect_outcomes_witness :
  App.currentView Samples.scienceChosen.1.1 = App.topic_select /\
  App.previousView Samples.scienceChosen.1.1 = Some App.subject_select /\
  App.selectedClass Samples.scienceChosen.1.1 = Some Gemini.Class10 /\
  App.selectedSubject Samples.scienceChosen.1.1 = Some Gemini.Science /\
  App.isLoadingChapters Samples.scienceChosen.1.1 = Some false /\
  App.availableChapters Samples.scienceChosen.1.1
  = Some Samples.scienceChapters /\
  App.error Samples.scienceChosen.1.1 = None /\
  Samples.scienceChosen.2 = [Gemini.Invoked].
Proof.
  destruct (proj2 (handleSubjectSelect_outcomes
                     (Samples.chaptersText Samples.chaptersAnswer)
                     Samples.parseChapters Gemini.Science
                     Samples.classChosen ())
              Gemini.Class10 eq_refl)
    as (Hview & Hprevious & Hclass & Hsubject & Hloading & _ & Hcalls & Hshown).
  destruct (Hshown Samples.scienceChapters eq_refl) as [Hchapters Herror].
  split; [exact Hview|]. split; [exact Hprevious|]. split; [exact Hclass|].
  split; [exact Hsubject|]. split; [exact Hloading|].
  split; [exact Hchapters|]. split; [exact Herror|]. exact Hcalls.
Defined.

Lemma subjectHasClass_kept_witness :
  App.subjectHasClass
    (App.notesOnBack (App.handleClassSelect Gemini.Class10 App.handleStartClassSelection)).
Proof.
  apply (proj1 (proj2 (proj2
           (proj1 (proj2 (proj2 (proj2 (proj2 (proj2 (proj2 (proj2
              (@subjectHasClass_kept unit Samples.silent Samples.noParse
                 Samples.notesUnavailable))))))))
              (App.handleClassSelect Gemini.Class10 App.handleStartClassSelection)
              ltac:(done))))).
Defined.

Section SyllabusFacts.
Context {W : Type}.
Variable generateContent :
  Gemini.GenerateContentParameters -> W
  -> (Error + Gemini.GenerateContentResponse) * W.
Variable convertToBase64 : SyllabusAnalysis.File -> Error + string.

#[local] Abbreviation handleAnalyze :=
  (SyllabusAnalysis.handleAnalyze generateContent convertToBase64).

(** X25. What the upload screen shows after [handleAnalyze] on a file that
    could be read.  An answer with text becomes the analysis, with no
    message.  An answer without text shows "No analysis generated".  A
    remote side that keeps answering 429 shows the high-traffic message
    after the three retries.  In the two failing cases the analysis shown
    before stays, and in every case the loading flag is cleared and the
    file is kept. *)
Theorem handleAnalyze_shows (st : SyllabusAnalysis.State) w f base64 :
  SyllabusAnalysis.file st = Some f ->
  convertToBase64 f = inr base64 ->
  let st' := (handleAnalyze st w).1.1 in
  SyllabusAnalysis.loading st' = false /\
  SyllabusAnalysis.file st' = Some f /\
  (forall t w1,
     generateContent
       (Gemini.analysisRequest base64 (SyllabusAnalysis.fileType f)) w
     = (inr {| Gemini.text := Some t |}, w1) ->
     t <> EmptyString ->
     SyllabusAnalysis.analysis st' = Some t /\
     SyllabusAnalysis.errorMsg st' = None) /\
  (forall response w1,
     generateContent
       (Gemini.analysisRequest base64 (SyllabusAnalysis.fileType f)) w
     = (inr response, w1) ->
     truthy (Gemini.text response) = false ->
     SyllabusAnalysis.analysis st' = SyllabusAnalysis.analysis st /\
     SyllabusAnalysis.errorMsg st' = Some "No analysis generated") /\
  (Gemini.remoteAlwaysFailsWith generateContent
     (fun err => Gemini.tooManyRequests err = true)
     (Gemini.analysisRequest base64 (SyllabusAnalysis.fileType f)) ->
   SyllabusAnalysis.analysis st' = SyllabusAnalysis.analysis st /\
   SyllabusAnalysis.errorMsg st' = message Gemini.highTraffic /\
   (handleAnalyze st w).2 = Gemini.backoff 3 2000).
Proof.
  intros Hf Hconv. cbn zeta.
  unfold SyllabusAnalysis.handleAnalyze. rewrite Hf, Hconv.
  split; [|split; [|split; [|split]]].
  - by destruct (Gemini.analyzeSyllabus _ _ _ _) as [[[err|v] w1] tr].
  - by destruct (Gemini.analyzeSyllabus _ _ _ _) as [[[err|v] w1] tr].
  - intros t w1 Hg Ht.
    assert (Gemini.analyzeSyllabus generateContent base64
              (SyllabusAnalysis.fileType f) w
            = (inr t, w1, [Gemini.Invoked])) as ->; [|done].
    unfold Gemini.analyzeSyllabus.
    rewrite RetryFacts.retryAPI_unfold. unfold Gemini.analysisOperation at 1.
    rewrite Hg. by destruct t.
  - intros response w1 Hg Htext.
    assert (Gemini.analyzeSyllabus generateContent base64
              (SyllabusAnalysis.fileType f) w
            = (inl (newError "No analysis generated"), w1,
               [Gemini.Invoked])) as ->; [|done].
    unfold Gemini.analyzeSyllabus.
    rewrite RetryFacts.retryAPI_unfold. unfold Gemini.analysisOperation at 1.
    by rewrite Hg, Htext.
  - intros H%RemoteFacts.analysisOperation_fails.
    destruct (RetryFacts.retryAPI_backoff _ _ 3 2000 w
                RemoteFacts.tooManyRequests_rateLimited H)
      as (err & w' & Hrun & Herr).
    change (Z.of_nat 3) with 3 in Hrun.
    unfold Gemini.analyzeSyllabus. rewrite Hrun.
    unfold Gemini.analysisCatch. by rewrite Herr.
Qed.

(** X26. The file kept for analysis is always a PDF or an image: from the
    empty upload screen, whatever files are offered and whenever the
    analysis is run, [handleFile] lets no other type in, so that
    [analyzeSyllabus] is never asked to read one. *)
Theorem reachable_accepted (st : SyllabusAnalysis.State) :
  SyllabusAnalysis.reachable generateContent convertToBase64 st ->
  forall f, SyllabusAnalysis.file st = Some f ->
            SyllabusAnalysis.accepted f = true.
Proof.
  induction 1 as [|f0 st _ IH|st _ _|st _ _|st w _ IH]; intros f Hf.
  - discriminate Hf.
  - unfold SyllabusAnalysis.handleFile in Hf.
    destruct (SyllabusAnalysis.accepted f0) eqn:E; [|by apply IH].
    cbn in Hf. by injection Hf as <-.
  - discriminate Hf.
  - discriminate Hf.
  - apply IH. rewrite <- Hf. unfold SyllabusAnalysis.handleAnalyze.
    destruct (SyllabusAnalysis.file st) as [g|] eqn:E; [|by cbn; rewrite E].
    destruct (convertToBase64 g) as [err|base64]; [done|].
    by destruct (Gemini.analyzeSyllabus _ _ _ _) as [[[err|v] w1] tr].
Qed.

End SyllabusFacts.

Lemma handleAnalyze_shows_witness :
  SyllabusAnalysis.analysis
    (SyllabusAnalysis.handleAnalyze (Samples.remote Samples.status429)
       Samples.encoded Samples.syllabusChosen ()).1.1
  = SyllabusAnalysis.analysis Samples.syllabusChosen /\
  SyllabusAnalysis.errorMsg
    (SyllabusAnalysis.handleAnalyze (Samples.remote Samples.status429)
       Samples.encoded Samples.syllabusChosen ()).1.1
  = message Gemini.highTraffic /\
  (SyllabusAnalysis.handleAnalyze (Samples.remote Samples.status429)
     Samples.encoded Samples.syllabusChosen ()).2
  = Gemini.backoff 3 2000.
Proof.
  apply (proj2 (proj2 (proj2 (proj2
           (handleAnalyze_shows (Samples.remote Samples.status429)
              Samples.encoded Samples.syllabusChosen () Samples.syllabus
              "JVBERi0xLjc=" eq_refl eq_refl))))).
  intros w. exists Samples.status429, w. split; reflexivity.
Defined.

Lemma reachable_accepted_witness :
  SyllabusAnalysis.accepted Samples.syllabus = true.
Proof.
  apply (reachable_accepted Samples.silent Samples.encoded
           (SyllabusAnalysis.handleFile Samples.syllabus
              {| SyllabusAnalysis.file := None;
                 SyllabusAnalysis.analysis := None;
                 SyllabusAnalysis.loading := false;
                 SyllabusAnalysis.errorMsg := None |})).
  - apply SyllabusAnalysis.reachable_file, SyllabusAnalysis.reachable_initial.
  - reflexivity.
Defined.

(** X27. The track index of the music player never leaves the list: from
    an index inside [TRACKS], "next" and "previous" give an index inside
    [TRACKS], each undoes the other, and "next" from the last track is the
    first one. *)
Theorem track_index_in_range (currentTrack : Z) :
  0 <= currentTrack < Z.of_nat (List.length MusicPlayer.TRACKS) ->
  is_Some (MusicPlayer.trackAt (MusicPlayer.handleNext currentTrack)) /\
  is_Some (MusicPlayer.trackAt (MusicPlayer.handlePrev currentTrack)) /\
  MusicPlayer.handlePrev (MusicPlayer.handleNext currentTrack) = currentTrack /\
  MusicPlayer.handleNext (MusicPlayer.handlePrev currentTrack) = currentTrack /\
  (currentTrack = Z.of_nat (List.length MusicPlayer.TRACKS) - 1 ->
   MusicPlayer.handleNext currentTrack = 0).
Proof.
  cbn [List.length MusicPlayer.TRACKS]. intros H.
  assert (currentTrack = 0 \/ currentTrack = 1 \/ currentTrack = 2
          \/ currentTrack = 3) as [->|[->|[->| ->]]] by lia;
    repeat split; try (by eexists); try done; lia.
Qed.

Lemma track_index_in_range_witness :
  is_Some (MusicPlayer.trackAt (MusicPlayer.handleNext 3)) /\
  is_Some (MusicPlayer.trackAt (MusicPlayer.handlePrev 3)) /\
  MusicPlayer.handlePrev (MusicPlayer.handleNext 3) = 3 /\
  MusicPlayer.handleNext (MusicPlayer.handlePrev 3) = 3 /\
  (3 = Z.of_nat (List.length MusicPlayer.TRACKS) - 1 ->
   MusicPlayer.handleNext 3 = 0).
Proof. apply (track_index_in_range 3). cbn. lia. Defined.

Section ModalFacts.
Variable supabaseUrl : string.
Variable createClient : option UserService.SupabaseClient.
Variable code : Error -> option string.

#[local] Abbreviation handleSocialLogin :=
  (AuthModal.handleSocialLogin supabaseUrl createClient code).

(** X28. The two buttons of the sign-in modal.  "Continue as guest" always
    succeeds: the modal closes without a message and hands the guest to
    [onLoginSuccess], and the guest session is stored.  "Google", without a
    usable remote auth collaborator, changes nothing but the message, which
    is the one that asks for the setup (a failure made with [new Error]
    carries no [code]); the modal stays as it was and nobody is logged
    in. *)
Theorem handleSocialLogin_outcomes now (st : AuthModal.State) w :
  (let '(st', w') := handleSocialLogin UserService.Provider.anonymous now st w in
   AuthModal.isOpen st' = false /\ AuthModal.error st' = None /\
   AuthModal.loading st' = false /\
   AuthModal.loggedIn st' = Some (UserService.guestUser now) /\
   UserService.scholr_guest_session (UserService.localStorage w')
   = Some (UserService.Stringified (UserService.guestUser now))) /\
  (UserService.supabase supabaseUrl createClient = None ->
   (forall msg, code (newError msg) = None) ->
   let '(st', w') := handleSocialLogin UserService.Provider.google now st w in
   w' = w /\
   AuthModal.isOpen st' = AuthModal.isOpen st /\
   AuthModal.loggedIn st' = AuthModal.loggedIn st /\
   AuthModal.loading st' = false /\
   AuthModal.error st' =
     Some "Setup Needed: Open services/userService.ts and add your Firebase Config.").
Proof.
  split.
  - unfold AuthModal.handleSocialLogin, UserService.loginUser.
    by rewrite bool_decide_eq_true_2.
  - intros Hs Hcode.
    unfold AuthModal.handleSocialLogin, UserService.loginUser.
    rewrite bool_decide_eq_false_2 by done.
    assert ((if UserService.isFirebaseConfigured supabaseUrl
             then UserService.supabase supabaseUrl createClient else None)
            = None) as -> by (rewrite Hs; by destruct (UserService.isFirebaseConfigured _)).
    unfold AuthModal.handleError. rewrite Hcode.
    rewrite !bool_decide_eq_false_2 by done.
    repeat split.
Qed.

End ModalFacts.

Lemma handleSocialLogin_outcomes_witness :
  let '(st', w') :=
    AuthModal.handleSocialLogin "YOUR_SUPABASE_URL_HERE" None Samples.noCode
      UserService.Provider.google 1760000000123 Samples.modalOpen
      Samples.freshWorld in
  w' = Samples.freshWorld /\
  AuthModal.isOpen st' = AuthModal.isOpen Samples.modalOpen /\
  AuthModal.loggedIn st' = AuthModal.loggedIn Samples.modalOpen /\
  AuthModal.loading st' = false /\
  AuthModal.error st' =
    Some "Setup Needed: Open services/userService.ts and add your Firebase Config.".
Proof.
  apply (proj2 (handleSocialLogin_outcomes "YOUR_SUPABASE_URL_HERE" None
                  Samples.noCode 1760000000123 Samples.modalOpen
                  Samples.freshWorld)); reflexivity.
Defined.

End ScreenFacts.
